(** * FritzApi.js: the AHA-HTTP login handshake and the temperature codec

    A shallow embedding of [FritzApi.js] (Scriptable script talking to a
    Fritz!Box).  The pure helpers ([celsiusOnOffToFritz], [fritzToCelsiusOnOff],
    [parseArgs], [parseResponse], the two challenge-response calculators) are
    Rocq functions; the asynchronous [SessionID.create] is written in a small
    trace-and-exception monad over an explicit host (HTTP transport, XML
    parser, crypto module).  [sendCommand], [getInputArgs], the
    [LoginManager] and [main] follow, over a keychain and the user's answers
    to the two alerts.

    Conventions.
    - A JavaScript string is a [string] holding the UTF-8 bytes of the text.
    - A JavaScript number is a [Num]: NaN, the two infinities, or an exact
      rational.  Binary64 rounding and the sign of zero are not represented;
      on the half-degree grid and the magnitudes the codec works with every
      double operation of the source is exact.
    - [null]/[undefined] are [None]. *)

From Stdlib Require Import String Ascii List Bool ZArith QArith Qround Qfield Lia Lqa.
Import ListNotations.

Local Open Scope string_scope.

(* ================================================================== *)
(** * JavaScript numbers *)
(* ================================================================== *)

Module JS.

Inductive Num : Type :=
| NaN
| PInf
| NInf
| Fin (q : Q).

(** Finite results are kept in lowest terms, so that equal numbers are equal
    terms. *)
Definition fin (q : Q) : Num := Fin (Qred q).
Definition of_Z (z : Z) : Num := Fin (inject_Z z).

Definition Qsign (q : Q) : comparison := Qcompare q 0.

Definition Qltb (x y : Q) : bool :=
  match Qcompare x y with
  | Lt => true
  | _ => false
  end.

Definition inf_of (c : comparison) : Num :=
  match c with
  | Gt => PInf
  | Lt => NInf
  | Eq => NaN
  end.

Definition neg (a : Num) : Num :=
  match a with
  | NaN => NaN
  | PInf => NInf
  | NInf => PInf
  | Fin q => fin (- q)
  end.

Definition add (a b : Num) : Num :=
  match a, b with
  | NaN, _ | _, NaN => NaN
  | PInf, NInf | NInf, PInf => NaN
  | PInf, _ | _, PInf => PInf
  | NInf, _ | _, NInf => NInf
  | Fin x, Fin y => fin (x + y)
  end.

Definition sub (a b : Num) : Num := add a (neg b).

Definition mul (a b : Num) : Num :=
  match a, b with
  | NaN, _ | _, NaN => NaN
  | Fin x, Fin y => fin (x * y)
  | Fin x, PInf | PInf, Fin x => inf_of (Qsign x)
  | Fin x, NInf | NInf, Fin x => inf_of (CompOpp (Qsign x))
  | PInf, PInf | NInf, NInf => PInf
  | PInf, NInf | NInf, PInf => NInf
  end.

Definition div (a b : Num) : Num :=
  match a, b with
  | NaN, _ | _, NaN => NaN
  | Fin x, Fin y =>
      match Qsign y with
      | Eq => inf_of (Qsign x)
      | _ => fin (x / y)
      end
  | Fin _, (PInf | NInf) => Fin 0
  | PInf, Fin y => match Qsign y with Lt => NInf | _ => PInf end
  | NInf, Fin y => match Qsign y with Lt => PInf | _ => NInf end
  | (PInf | NInf), (PInf | NInf) => NaN
  end.

(** [a < b]; every comparison with NaN is false. *)
Definition lt (a b : Num) : bool :=
  match a, b with
  | NaN, _ | _, NaN => false
  | _, NInf => false
  | NInf, _ => true
  | PInf, _ => false
  | _, PInf => true
  | Fin x, Fin y => Qltb x y
  end.

Definition gt (a b : Num) : bool := lt b a.

(** [a === b] on numbers. *)
Definition eqb (a b : Num) : bool :=
  match a, b with
  | PInf, PInf | NInf, NInf => true
  | Fin x, Fin y => Qeq_bool x y
  | _, _ => false
  end.

(** [Math.round]: the nearest integer, ties towards +Infinity. *)
Definition Math_round (a : Num) : Num :=
  match a with
  | Fin q => of_Z (Qfloor (q + (1 # 2)))
  | other => other
  end.

End JS.

Abbreviation Num := JS.Num.
Abbreviation NaN := JS.NaN.
Abbreviation Fin := JS.Fin.

Declare Scope num_scope.
Delimit Scope num_scope with num.
Bind Scope num_scope with JS.Num.
Infix "+" := JS.add : num_scope.
Infix "-" := JS.sub : num_scope.
Infix "*" := JS.mul : num_scope.
Infix "/" := JS.div : num_scope.
Infix "<?" := JS.lt : num_scope.
Infix ">?" := JS.gt : num_scope.
Infix "=?" := JS.eqb : num_scope.

(** Numeric literals of the source. *)
Definition lit (z : Z) : Num := JS.of_Z z.
Definition half : Num := Fin (1 # 2).      (* 0.5 *)

(* ================================================================== *)
(** * JavaScript strings and the built-in conversions the script uses *)
(* ================================================================== *)

Definition code (c : ascii) : Z := Z.of_N (N_of_ascii c).

Definition between (lo hi : Z) (c : ascii) : bool :=
  (lo <=? code c)%Z && (code c <=? hi)%Z.

Definition is_digit (c : ascii) : bool := between 48 57 c.

(** Value of a character as a digit of the given radix (10 or 16). *)
Definition digit_value (radix : Z) (c : ascii) : option Z :=
  if is_digit c then Some (code c - 48)%Z
  else if (radix =? 16)%Z && between 97 102 c then Some (code c - 87)%Z
  else if (radix =? 16)%Z && between 65 70 c then Some (code c - 55)%Z
  else None.

(** [String.prototype.toLowerCase].  Only the letters A-Z change; the other
    code points are left as they are, which no comparison or parse of this
    script can tell apart from the full Unicode mapping. *)
Definition lower_char (c : ascii) : ascii :=
  if between 65 90 c then ascii_of_N (N_of_ascii c + 32) else c.

Fixpoint toLowerCase (s : string) : string :=
  match s with
  | EmptyString => EmptyString
  | String c r => String (lower_char c) (toLowerCase r)
  end.

(** [s.startsWith(p)]. *)
Fixpoint startsWith (s p : string) {struct p} : bool :=
  match p with
  | EmptyString => true
  | String a p' =>
      match s with
      | EmptyString => false
      | String b s' => Ascii.eqb a b && startsWith s' p'
      end
  end.

(** [s.split(sep)] for a one-character separator. *)
Fixpoint split (sep : ascii) (s : string) : list string :=
  match s with
  | EmptyString => [EmptyString]
  | String c r =>
      if Ascii.eqb c sep then EmptyString :: split sep r
      else match split sep r with
           | [] => [String c EmptyString]
           | f :: fs => String c f :: fs
           end
  end.

(** White space and line terminators, as the numeric conversions trim them
    (TAB, LF, VT, FF, CR, SP, and in UTF-8: U+00A0, U+1680, U+2000-U+200A,
    U+2028, U+2029, U+202F, U+205F, U+3000, U+FEFF). *)
Definition ws1 (a : ascii) : bool :=
  between 9 13 a || (code a =? 32)%Z.

Definition ws2 (a b : ascii) : bool :=
  (code a =? 194)%Z && (code b =? 160)%Z.

Definition ws3 (a b c : ascii) : bool :=
  let '(x, y, z) := (code a, code b, code c) in
  ((x =? 225) && (y =? 154) && (z =? 128))%Z
  || ((x =? 226)%Z && (y =? 128)%Z
        && (between 128 138 c || between 168 169 c || (z =? 175)%Z))
  || ((x =? 226) && (y =? 129) && (z =? 159))%Z
  || ((x =? 227) && (y =? 128) && (z =? 128))%Z
  || ((x =? 239) && (y =? 187) && (z =? 191))%Z.

Fixpoint skip_ws (s : string) : string :=
  match s with
  | EmptyString => EmptyString
  | String a r1 =>
      if ws1 a then skip_ws r1
      else match r1 with
           | String b r2 =>
               if ws2 a b then skip_ws r2
               else match r2 with
                    | String c r3 => if ws3 a b c then skip_ws r3 else s
                    | EmptyString => s
                    end
           | EmptyString => s
           end
  end.

(** An optional sign: the factor it stands for and the rest of the text. *)
Definition strip_sign (s : string) : Z * string :=
  match s with
  | String c r =>
      if Ascii.eqb c "-" then ((-1)%Z, r)
      else if Ascii.eqb c "+" then (1%Z, r)
      else (1%Z, s)
  | EmptyString => (1%Z, s)
  end.

(** The longest run of digits of the radix at the start of the text. *)
Fixpoint span_digits (radix : Z) (s : string) : list Z * string :=
  match s with
  | EmptyString => ([], s)
  | String c r =>
      match digit_value radix c with
      | Some d => let '(ds, rest) := span_digits radix r in (d :: ds, rest)
      | None => ([], s)
      end
  end.

Definition digits_value (radix : Z) (ds : list Z) : Z :=
  fold_left (fun acc d => radix * acc + d)%Z ds 0%Z.

(** A [0x]/[0X] prefix selects radix 16. *)
Definition strip_hex_prefix (s : string) : Z * string :=
  match s with
  | String c (String d r) =>
      if Ascii.eqb c "0" && (Ascii.eqb d "x" || Ascii.eqb d "X")
      then (16%Z, r)
      else (10%Z, s)
  | _ => (10%Z, s)
  end.

(** [parseInt(s)] without a radix argument. *)
Definition parseInt (s : string) : Num :=
  let '(sign, s1) := strip_sign (skip_ws s) in
  let '(radix, s2) := strip_hex_prefix s1 in
  match fst (span_digits radix s2) with
  | [] => NaN
  | ds => lit (sign * digits_value radix ds)
  end.

(** A prefix that is a [StrDecimalLiteral]: sign, then [Infinity] or
    digits with an optional fraction and an optional exponent.  Returns the
    value and the text after the literal, or [None] when none starts here. *)
Definition parse_exponent (s : string) : Z * string :=
  match s with
  | String c r =>
      if Ascii.eqb c "e" || Ascii.eqb c "E" then
        let '(esign, r1) := strip_sign r in
        match span_digits 10 r1 with
        | ([], _) => (0%Z, s)
        | (eds, r2) => ((esign * digits_value 10 eds)%Z, r2)
        end
      else (0%Z, s)
  | EmptyString => (0%Z, s)
  end.

Definition parse_decimal (s : string) : option (Num * string) :=
  let '(sign, s1) := strip_sign s in
  if startsWith s1 "Infinity" then
    Some (JS.inf_of (Z.compare sign 0), substring 8 (String.length s1 - 8) s1)
  else
    let '(ip, s2) := span_digits 10 s1 in
    let '(fp, s3) :=
      match s2 with
      | String "." r => span_digits 10 r
      | _ => ([], s2)
      end in
    match (ip ++ fp)%list with
    | [] => None
    | ds =>
        let '(e, s4) := parse_exponent s3 in
        Some (JS.fin (inject_Z (sign * digits_value 10 ds)
                      * Qpower (10 # 1) (e - Z.of_nat (List.length fp))),
              s4)
    end.

(** [parseFloat(s)]: the longest numeric prefix after leading white space. *)
Definition parseFloat (s : string) : Num :=
  match parse_decimal (skip_ws s) with
  | Some (n, _) => n
  | None => NaN
  end.

(** [Number(s)] and every implicit string-to-number coercion: the whole
    trimmed text must be a numeric literal; the empty text is 0. *)
Definition radix_literal (s : string) : option (Z * string) :=
  match s with
  | String "0" (String c r) =>
      if Ascii.eqb c "x" || Ascii.eqb c "X" then Some (16%Z, r)
      else if Ascii.eqb c "o" || Ascii.eqb c "O" then Some (8%Z, r)
      else if Ascii.eqb c "b" || Ascii.eqb c "B" then Some (2%Z, r)
      else None
  | _ => None
  end.

Fixpoint span_radix (radix : Z) (s : string) : list Z * string :=
  match s with
  | EmptyString => ([], s)
  | String c r =>
      match digit_value 16 c with
      | Some d =>
          if (d <? radix)%Z then
            let '(ds, rest) := span_radix radix r in (d :: ds, rest)
          else ([], s)
      | None => ([], s)
      end
  end.

Definition StringToNumber (s : string) : Num :=
  let t := skip_ws s in
  match t with
  | EmptyString => lit 0
  | _ =>
      match radix_literal t with
      | Some (radix, r) =>
          match span_radix radix r with
          | ([], _) => NaN
          | (ds, rest) =>
              match skip_ws rest with
              | EmptyString => lit (digits_value radix ds)
              | _ => NaN
              end
          end
      | None =>
          match parse_decimal t with
          | Some (n, rest) =>
              match skip_ws rest with
              | EmptyString => n
              | _ => NaN
              end
          | None => NaN
          end
      end
  end.

(** [Number.prototype.toString]: decimal notation.  The exponent notation
    JavaScript switches to from 1e21 on and below 1e-6 is not modelled. *)
Definition digit_char (d : Z) : ascii := ascii_of_N (Z.to_N (48 + d)).

Fixpoint nat_digits (fuel : nat) (z : Z) (acc : string) : string :=
  match fuel with
  | O => acc
  | S f =>
      let acc' := String (digit_char (z mod 10)) acc in
      if (z <? 10)%Z then acc' else nat_digits f (z / 10) acc'
  end.

Fixpoint frac_digits (fuel : nat) (r d : Z) : string :=
  match fuel with
  | O => EmptyString
  | S f =>
      if (r =? 0)%Z then EmptyString
      else String (digit_char ((10 * r) / d)) (frac_digits f ((10 * r) mod d) d)
  end.

Definition Num_toString (n : Num) : string :=
  match n with
  | JS.NaN => "NaN"
  | JS.PInf => "Infinity"
  | JS.NInf => "-Infinity"
  | JS.Fin q =>
      let q' := Qred q in
      let d := Zpos (Qden q') in
      let a := Z.abs (Qnum q') in
      let int_part := nat_digits (S (Z.to_nat (Z.log2 (a / d)))) (a / d) EmptyString in
      let frac := frac_digits (S (Pos.to_nat (Pos.size (Qden q')))) (a mod d) d in
      let body := match frac with
                  | EmptyString => int_part
                  | _ => int_part ++ "." ++ frac
                  end in
      if (Qnum q' <? 0)%Z then String "-" body else body
  end.

(** The values the script passes around: numbers and strings. *)
Inductive Value : Type :=
| VNum (n : Num)
| VStr (s : string).

(** [v.toString()] / [String(v)]. *)
Definition ToString (v : Value) : string :=
  match v with
  | VNum n => Num_toString n
  | VStr s => s
  end.

(** [a === b]. *)
Definition strict_eq (a b : Value) : bool :=
  match a, b with
  | VNum x, VNum y => JS.eqb x y
  | VStr x, VStr y => String.eqb x y
  | _, _ => false
  end.

(** [a == b]: a string is compared with a number by the number it spells. *)
Definition loose_eq (a b : Value) : bool :=
  match a, b with
  | VNum x, VNum y => JS.eqb x y
  | VStr x, VStr y => String.eqb x y
  | VNum x, VStr y => JS.eqb x (StringToNumber y)
  | VStr x, VNum y => JS.eqb (StringToNumber x) y
  end.

(** Thrown values: [new Error(message)], and the engine's [TypeError] and
    [ReferenceError]. *)
Inductive Exn : Type :=
| Error (message : string)
| TypeError (message : string)
| ReferenceError (message : string).

Definition message (e : Exn) : string :=
  match e with
  | Error m => m
  | TypeError m => m
  | ReferenceError m => m
  end.

Definition Result (A : Type) : Type := (Exn + A)%type.
Definition Ok {A : Type} (a : A) : Result A := inr a.
Definition Throw {A : Type} (e : Exn) : Result A := inl e.

(* ================================================================== *)
(** * Settings and arguments *)
(* ================================================================== *)

(** The constants of the "Settings" block the modelled functions read. *)
Record Settings : Type := {
  SHOW_NOTIFICATIONS : bool;
  USE_CELSIUS_ON_OFF : bool
}.

(** The values the script ships with. *)
Definition shipped : Settings :=
  {| SHOW_NOTIFICATIONS := true; USE_CELSIUS_ON_OFF := true |}.

(** The [arguments] object: keys in insertion order. *)
Definition Arguments : Type := list (string * Value).

Fixpoint get (key : string) (o : Arguments) : option Value :=
  match o with
  | [] => None
  | (k, v) :: r => if String.eqb k key then Some v else get key r
  end.

Fixpoint set (key : string) (v : Value) (o : Arguments) : Arguments :=
  match o with
  | [] => [(key, v)]
  | (k, w) :: r =>
      if String.eqb k key then (k, v) :: r else (k, w) :: set key v r
  end.

(* ================================================================== *)
(** * Temperature codec *)
(* ================================================================== *)

(** [celsiusOnOffToFritz(celsius_temp)]. *)
Definition celsiusOnOffToFritz (celsius_temp : Value) : Result Num :=
  let checked : Result Num :=
    match celsius_temp with
    | VStr s =>
        let s := toLowerCase s in
        if String.eqb s "off" then Ok (lit 253)
        else if String.eqb s "on" then Ok (lit 254)
        else Throw (Error ("Invalid temperature: " ++ s
                           ++ ". Must be a number or 'on' or 'off'."))
    | VNum n => Ok n
    end in
  match checked with
  | inl e => Throw e
  | inr celsius_temp =>
      let converted := celsius_temp in
      let converted :=
        if negb (celsius_temp =? lit 253)%num && negb (celsius_temp =? lit 254)%num
        then
          let converted := (JS.Math_round (converted * lit 2) / lit 2)%num in
          (lit 16 + (converted - lit 8) / half)%num
        else converted in
      let converted :=
        if (converted <? lit 16)%num then lit 253
        else if (converted >? lit 56)%num && negb (converted =? lit 253)%num
             then lit 254
             else converted in
      Ok converted
  end.

(** [fritzToCelsiusOnOff(fritz_temp)]: a Celsius number, or "OFF"/"ON". *)
Definition fritzToCelsiusOnOff (fritz_temp : Value) : Value :=
  let fritz_temp := parseInt (ToString fritz_temp) in
  let converted := fritz_temp in
  if negb (fritz_temp =? lit 253)%num && negb (fritz_temp =? lit 254)%num then
    VNum ((converted - lit 16) * half + lit 8)%num
  else if (fritz_temp =? lit 253)%num then VStr "OFF"
  else if (fritz_temp =? lit 254)%num then VStr "ON"
  else VNum converted.

(** The [sethkrtsoll] branch of [parseArgs], for a [param] that is present:
    lower-case its text, map "off"/"0"/"on" to the device sentinels and run
    [parseFloat] of the outcome through [celsiusOnOffToFritz]. *)
Definition parseArgs_param (p : Value) : Result Num :=
  let param := toLowerCase (ToString p) in
  let param :=
    if String.eqb param "off" || String.eqb param "0" then VNum (lit 253)
    else if String.eqb param "on" then VNum (lit 254)
    else VStr param in
  celsiusOnOffToFritz (VNum (parseFloat (ToString param))).

(** [parseArgs(arguments)]. *)
Definition parseArgs (cfg : Settings) (arguments : Arguments) : Result Arguments :=
  if (match get "switchcmd" arguments with
      | Some v => strict_eq v (VStr "sethkrtsoll")
      | None => false
      end) && USE_CELSIUS_ON_OFF cfg
  then
    match get "param" arguments with
    | Some p =>
        match parseArgs_param p with
        | inl e => Throw e
        | inr n => Ok (set "param" (VNum n) arguments)
        end
    | None => Throw (Error "No temperature was passed to the script")
    end
  else Ok arguments.

(** The verbs whose response is a temperature. *)
Definition temperature_verbs : list string :=
  ["gettemperature"; "sethkrtsoll"; "gethkrtsoll"; "gethkrkomfort"; "gethkrabsenk"].

Definition includes (l : list string) (x : string) : bool :=
  existsb (String.eqb x) l.

(** [parseResponse(response, switchcmd)]. *)
Definition parseResponse (cfg : Settings) (response switchcmd : string) : string :=
  let response :=
    if includes temperature_verbs switchcmd && USE_CELSIUS_ON_OFF cfg then
      let response := fritzToCelsiusOnOff (VStr response) in
      let response :=
        match response with
        | VNum n => Num_toString n ++ "°C"
        | VStr s => s
        end in
      "Heater set to " ++ response
    else response in
  "Response: " ++ response.

(* ================================================================== *)
(** * The host: crypto module, HTTP transport, XML parser *)
(* ================================================================== *)

(** [CRYPTO.algo.*]. *)
Inductive Hasher : Type := SHA256.

(** The configuration object handed to [CRYPTO.PBKDF2]; [keySize] counts
    32-bit words. *)
Record PBKDF2Config : Type := {
  keySize : Num;
  iterations : Num;
  hasher : Hasher
}.

(** The configuration both PBKDF2 calls share, up to the iteration count:
    SHA-256 and 8 words (256 bits) of output. *)
Definition sha256_256bit (n : Num) : PBKDF2Config :=
  {| keySize := lit 8; iterations := n; hasher := SHA256 |}.

(** What the script takes from its host: the module bound to [CRYPTO]
    ([importModule('Crypto-js')]) and the global [Buffer].  Neither is part of
    the script; their operations are parameters of the development.  The
    script uses two different APIs: [enc.Hex], [PBKDF2] and [algo] are
    Crypto-js's, while [createHash] is the API of Node's [crypto] module and
    [Buffer] is a global of Node.  A host need not have the latter two, so
    they are optional: [None] is a global that is not defined, or a property
    the module does not have. *)
Class Crypto : Type := {
  WordArray : Type;
  Buffer : Type;
  (** [CRYPTO.enc.Hex.parse(hexStr)] *)
  Hex_parse : string -> WordArray;
  (** [CRYPTO.PBKDF2(password, salt, cfg)]; the password is a string or a
      word array *)
  PBKDF2 : string + WordArray -> WordArray -> PBKDF2Config -> WordArray;
  (** [wordArray.toString()]: lower-case hex *)
  WordArray_toString : WordArray -> string;
  (** [Buffer.from(text, encoding)], where the host defines [Buffer] *)
  Buffer_from : option (string -> string -> Buffer);
  (** [CRYPTO.createHash(algorithm).update(buffer).digest(encoding)], where
      the module has [createHash] *)
  Hash_digest : option (string -> Buffer -> string -> string)
}.

(** A [Request] as configured before [loadString()]. *)
Record Request : Type := {
  url : string;
  method : string;
  body : option string
}.

(** Callbacks of the event-driven [XMLParser]. *)
Inductive XmlEvent : Type :=
| didStartElement (name : string)
| didEndElement (name : string)
| foundCharacters (value : string).

(** The device and the parser, as the script sees them. *)
Record Box : Type := {
  (** [await request.loadString()]: the body, or the transport's error *)
  loadString : Request -> Result string;
  (** the callbacks [new XMLParser(text).parse()] makes, in order *)
  XMLParser_parse : string -> list XmlEvent
}.

(* ================================================================== *)
(** * Effects: a trace of observable steps, and exceptions *)
(* ================================================================== *)

Inductive Method : Type :=
| M_getLoginState
| M_calculatePbkdf2Response
| M_calculateMd5Response
| M_sendResponse.

Inductive Event : Type :=
| Invoke (m : Method)              (* a method of [SessionID] is entered *)
| Load (r : Request)               (* [request.loadString()] *)
| ConsoleLog (text : string)       (* [console.log] *)
| Notify (text : string)           (* [notification.schedule()] *)
| TimerSchedule (ms : Num).        (* [Timer.schedule(ms, false, resolve)] *)

Definition M (A : Type) : Type := (list Event * Result A)%type.

Definition ret {A : Type} (a : A) : M A := ([], Ok a).
Definition throw {A : Type} (e : Exn) : M A := ([], Throw e).
Definition emit (ev : Event) : M unit := ([ev], Ok tt).
Definition lift {A : Type} (r : Result A) : M A := ([], r).

Definition bind {A B : Type} (m : M A) (f : A -> M B) : M B :=
  match m with
  | (t, inl e) => (t, inl e)
  | (t, inr a) => let '(t', r) := f a in ((t ++ t')%list, r)
  end.

(** [try { m } catch (err) { handler err }]. *)
Definition try_catch {A : Type} (m : M A) (handler : Exn -> M A) : M A :=
  match m with
  | (t, inl e) => let '(t', r) := handler e in ((t ++ t')%list, r)
  | (t, inr a) => (t, inr a)
  end.

Notation "x <- m ;; k" := (bind m (fun x => k))
  (at level 61, m at next level, right associativity).
Notation "m ;;; k" := (bind m (fun _ => k))
  (at level 61, right associativity).

Definition trace {A : Type} (m : M A) : list Event := fst m.
Definition outcome {A : Type} (m : M A) : Result A := snd m.

(* ================================================================== *)
(** * Constants of the script *)
(* ================================================================== *)

Definition BOX_URL : string := "http://fritz.box".
Definition LOGIN_SID_ROUTE : string := "/login_sid.lua?version=2".

(** The engine's message for a property read on [null]/[undefined]
    (JavaScriptCore goes on to quote the expression; no result below depends
    on the wording). *)
Definition not_an_object (what : string) : string :=
  what ++ " is not an object".

(** The engine's message for a read of a global that is not defined
    (JavaScriptCore's wording). *)
Definition not_defined (what : string) : string :=
  "Can't find variable: " ++ what.

(** The engine's message for a call of a property that is [undefined]. *)
Definition not_a_function (what : string) : string :=
  what ++ " is not a function".

(** [encodeURIComponent]: every byte outside [A-Z a-z 0-9 - _ . ! ~ * ' ( )]
    becomes [%XX]. *)
Definition unreserved (c : ascii) : bool :=
  between 65 90 c || between 97 122 c || is_digit c
  || existsb (Ascii.eqb c) ["-"; "_"; "."; "!"; "~"; "*"; "'"; "("; ")"]%char.

Definition hex_char (d : Z) : ascii :=
  if (d <? 10)%Z then ascii_of_N (Z.to_N (48 + d))
  else ascii_of_N (Z.to_N (55 + d)).

Fixpoint encodeURIComponent (s : string) : string :=
  match s with
  | EmptyString => EmptyString
  | String c r =>
      if unreserved c then String c (encodeURIComponent r)
      else String "%" (String (hex_char (code c / 16))
                               (String (hex_char (code c mod 16))
                                       (encodeURIComponent r)))
  end.

(* ================================================================== *)
(** * SessionID *)
(* ================================================================== *)

(** The object [getLoginState] returns. *)
Record LoginState : Type := {
  challenge : string;
  blockTime : option string;
  isPbkdf2 : bool
}.

Section SessionID.

Context {crypto : Crypto}.
Variable cfg : Settings.
Variable box : Box.

(** [showNotification(message)]. *)
Definition showNotification (text : string) : M unit :=
  if SHOW_NOTIFICATIONS cfg then
    emit (Notify text) ;;;
    emit (ConsoleLog ("Notification: " ++ text))
  else ret tt.

(** [await request.loadString()]. *)
Definition load (r : Request) : M string :=
  emit (Load r) ;;; lift (loadString box r).

(** The two callbacks [getLoginState] installs, acting on
    [(currentElement, challenge, blockTime)]. *)
Definition login_handlers
    (st : option string * option string * option string) (ev : XmlEvent)
  : option string * option string * option string :=
  let '(currentElement, challenge, blockTime) := st in
  match ev with
  | didStartElement name =>
      if String.eqb name "Challenge" || String.eqb name "BlockTime"
      then (Some name, challenge, blockTime)
      else st
  | foundCharacters value =>
      let '(currentElement, challenge) :=
        match currentElement with
        | Some "Challenge" => (Some EmptyString, Some value)
        | _ => (currentElement, challenge)
        end in
      match currentElement with
      | Some "BlockTime" => (Some EmptyString, challenge, Some value)
      | _ => (currentElement, challenge, blockTime)
      end
  | didEndElement _ => st
  end.

(** The request of [getLoginState]. *)
Definition login_request : Request :=
  {| url := BOX_URL ++ LOGIN_SID_ROUTE; method := "GET"; body := None |}.

(** The object literal [getLoginState] returns, for a challenge that is not
    [null]. *)
Definition login_state (challenge : string) (blockTime : option string)
  : LoginState :=
  {| challenge := challenge; blockTime := blockTime;
     isPbkdf2 := startsWith challenge "2$" |}.

(** [async getLoginState()]. *)
Definition getLoginState : M LoginState :=
  emit (Invoke M_getLoginState) ;;;
  response <- load login_request ;;
  let '(_, challenge, blockTime) :=
    fold_left login_handlers (XMLParser_parse box response) (None, None, None) in
  match challenge with
  | None => throw (TypeError (not_an_object "null"))
  | Some c => ret (login_state c blockTime)
  end.

(** [calculatePbkdf2Response(challenge, password)]. *)
Definition calculatePbkdf2Response (challenge password : string) : Result string :=
  let challengeParts := split "$" challenge in
  let part (i : nat) := nth_error challengeParts i in
  let Number (v : option string) :=
    match v with Some s => StringToNumber s | None => NaN end in
  let iter1 := Number (part 1%nat) in
  match part 2%nat with
  | None => Throw (TypeError (not_an_object "undefined"))
  | Some p2 =>
      let salt1 := Hex_parse p2 in
      let iter2 := Number (part 3%nat) in
      match part 4%nat with
      | None => Throw (TypeError (not_an_object "undefined"))
      | Some p4 =>
          let salt2 := Hex_parse p4 in
          let hash1 := PBKDF2 (inl password) salt1
                         {| keySize := (lit 256 / lit 32)%num;
                            iterations := iter1; hasher := SHA256 |} in
          let hash2 := PBKDF2 (inr hash1) salt2
                         {| keySize := (lit 256 / lit 32)%num;
                            iterations := iter2; hasher := SHA256 |} in
          Ok (p4 ++ "$" ++ WordArray_toString hash2)
      end
  end.

(** [calculateMd5Response(challenge, password)]. *)
Definition calculateMd5Response (challenge password : string) : Result string :=
  let response := challenge ++ "-" ++ password in
  match Buffer_from with
  | None => Throw (ReferenceError (not_defined "Buffer"))
  | Some from =>
      let responseBuffer := from response "utf16le" in
      match Hash_digest with
      | None => Throw (TypeError (not_a_function "CRYPTO.createHash"))
      | Some digest =>
          Ok (challenge ++ "-" ++ digest "md5" responseBuffer "hex")
      end
  end.

(** The callbacks [sendResponse] installs, acting on [(currentElement, sid)]. *)
Definition sid_handlers
    (st : option string * option string) (ev : XmlEvent)
  : option string * option string :=
  let '(currentElement, sid) := st in
  match ev with
  | didStartElement name =>
      if String.eqb name "SID" then (Some name, sid) else st
  | foundCharacters value =>
      match currentElement with
      | Some "SID" => (Some EmptyString, Some value)
      | _ => st
      end
  | didEndElement _ => st
  end.

(** The request [sendResponse] builds: the two parameters, URI-encoded and
    joined with [&]. *)
Definition submit_request (username challengeResponse : string) : Request :=
  let params := [("username", username); ("response", challengeResponse)] in
  let paramsArray :=
    map (fun kv => encodeURIComponent (fst kv) ++ "=" ++ encodeURIComponent (snd kv))
        params in
  {| url := BOX_URL ++ LOGIN_SID_ROUTE; method := "POST";
     body := Some (String.concat "&" paramsArray) |}.

(** The [sid] variable after the parse of a response. *)
Definition parsed_sid (response : string) : option string :=
  snd (fold_left sid_handlers (XMLParser_parse box response) (None, None)).

(** [async sendResponse(username, challengeResponse)]; [None] is [null]. *)
Definition sendResponse (username challengeResponse : string) : M (option string) :=
  emit (Invoke M_sendResponse) ;;;
  response <- load (submit_request username challengeResponse) ;;
  ret (parsed_sid response).

(** The challenge-response step of [create]: one of the two calculators,
    picked by [state.isPbkdf2]. *)
Definition solve (state : LoginState) (pass : string) : M string :=
  if isPbkdf2 state then
    emit (ConsoleLog "PBKDF2 supported") ;;;
    emit (Invoke M_calculatePbkdf2Response) ;;;
    lift (calculatePbkdf2Response (challenge state) pass)
  else
    emit (ConsoleLog "Falling back to MD5") ;;;
    emit (Invoke M_calculateMd5Response) ;;;
    lift (calculateMd5Response (challenge state) pass).

(** [state.blockTime > 0] and [state.blockTime * 1000]: [null] coerces to 0,
    a string to the number it spells. *)
Definition blockTime_number (state : LoginState) : Num :=
  match blockTime state with
  | None => lit 0
  | Some s => StringToNumber s
  end.

Definition blockTime_text (state : LoginState) : string :=
  match blockTime state with
  | None => "null"
  | Some s => s
  end.

(** The lock-out wait of [create]. *)
Definition wait (state : LoginState) : M unit :=
  if (blockTime_number state >? lit 0)%num then
    emit (ConsoleLog ("Waiting for " ++ blockTime_text state ++ " seconds...")) ;;;
    showNotification ("Waiting for " ++ blockTime_text state ++ " seconds...") ;;;
    emit (TimerSchedule (blockTime_number state * lit 1000)%num)
  else ret tt.

Definition REJECTED_SID : string := "0000000000000000".

(** [async create(user, pass)]. *)
Definition create (user pass : string) : M (option string) :=
  try_catch
    (state <- getLoginState ;;
     challengeResponse <- solve state pass ;;
     wait state ;;;
     sid <- sendResponse user challengeResponse ;;
     match sid with
     | Some s =>
         if String.eqb s REJECTED_SID
         then throw (Error "Wrong username or password")
         else ret sid
     | None => ret sid
     end)
    (fun err => throw (Error ("Failed to login! " ++ message err))).

End SessionID.

(* ================================================================== *)
(** * A simulated box, for running the model *)
(* ================================================================== *)

Module Sim.

(** Tokens of a flat XML text: [<name>], [</name>] and the text between. *)
Definition tag_event (name : string) : XmlEvent :=
  match name with
  | String "/" n => didEndElement n
  | n => didStartElement n
  end.

Definition text_event (text : string) : list XmlEvent :=
  match text with
  | EmptyString => []
  | t => [foundCharacters t]
  end.

Fixpoint tokens (s : string) (in_tag : bool) (acc : string) : list XmlEvent :=
  match s with
  | EmptyString => if in_tag then [] else text_event acc
  | String c r =>
      if in_tag then
        if Ascii.eqb c ">" then tag_event acc :: tokens r false EmptyString
        else tokens r true (acc ++ String c EmptyString)
      else
        if Ascii.eqb c "<" then (text_event acc ++ tokens r true EmptyString)%list
        else tokens r false (acc ++ String c EmptyString)
  end.

(** A box that answers the GET with [login_info] and the POST with
    [login_submit]. *)
Definition box (login_info login_submit : Result string) : Box :=
  {| loadString := fun r =>
       if String.eqb (method r) "GET" then login_info else login_submit;
     XMLParser_parse := fun s => tokens s false EmptyString |}.

(** Crypto operations as symbolic terms, written out as text, on a host that
    has both APIs the script calls: Crypto-js's and Node's. *)
#[export] Instance crypto : Crypto :=
  {| WordArray := string;
     Buffer := string;
     Hex_parse := fun h => "hex(" ++ h ++ ")";
     PBKDF2 := fun password salt c =>
       "pbkdf2(" ++ match password with inl s => s | inr w => w end
                 ++ "," ++ salt ++ "," ++ Num_toString (iterations c) ++ ")";
     WordArray_toString := fun w => w;
     Buffer_from := Some (fun text encoding => encoding ++ "(" ++ text ++ ")");
     Hash_digest := Some (fun algorithm buffer encoding =>
       algorithm ++ "(" ++ buffer ++ ")") |}.

(** The host the script is written for: Scriptable, which defines no
    [Buffer], with the Crypto-js module, which has no [createHash].  The
    Crypto-js operations are the symbolic ones of [crypto]. *)
Definition crypto_js : Crypto :=
  {| WordArray := string;
     Buffer := string;
     Hex_parse := Hex_parse (Crypto := crypto);
     PBKDF2 := PBKDF2 (Crypto := crypto);
     WordArray_toString := WordArray_toString (Crypto := crypto);
     Buffer_from := None;
     Hash_digest := None |}.

Definition login_info (challenge blockTime : string) : string :=
  "<SessionInfo><SID>0000000000000000</SID><Challenge>" ++ challenge
  ++ "</Challenge><BlockTime>" ++ blockTime ++ "</BlockTime></SessionInfo>".

Definition session_info (sid : string) : string :=
  "<SessionInfo><SID>" ++ sid ++ "</SID><BlockTime>0</BlockTime></SessionInfo>".

End Sim.

(* ================================================================== *)
(** * Stages and strategies read off a trace *)
(* ================================================================== *)

Inductive Stage : Type := Fetch | Solve | Wait | Submit.

(** The step that marks a stage: entering [getLoginState], entering one of
    the two calculators, arming the timer, entering [sendResponse]. *)
Definition stage_of (ev : Event) : list Stage :=
  match ev with
  | Invoke M_getLoginState => [Fetch]
  | Invoke M_calculatePbkdf2Response => [Solve]
  | Invoke M_calculateMd5Response => [Solve]
  | Invoke M_sendResponse => [Submit]
  | TimerSchedule _ => [Wait]
  | _ => []
  end.

Definition stages (t : list Event) : list Stage := flat_map stage_of t.

(** Strictly ascending for a ranking of the stages. *)
Fixpoint ascending (rank : Stage -> nat) (l : list Stage) : bool :=
  match l with
  | a :: (b :: _) as r => (rank a <? rank b)%nat && ascending rank r
  | _ => true
  end.

(** The order in which [create] is written. *)
Definition rank (s : Stage) : nat :=
  match s with Fetch => 0 | Solve => 1 | Wait => 2 | Submit => 3 end.

(** The order the specification words: fetch, wait, solve, submit. *)
Definition rank_spec (s : Stage) : nat :=
  match s with Fetch => 0 | Wait => 1 | Solve => 2 | Submit => 3 end.

(** How often a method was entered. *)
Definition method_eqb (a b : Method) : bool :=
  match a, b with
  | M_getLoginState, M_getLoginState
  | M_calculatePbkdf2Response, M_calculatePbkdf2Response
  | M_calculateMd5Response, M_calculateMd5Response
  | M_sendResponse, M_sendResponse => true
  | _, _ => false
  end.

Definition invoked (m : Method) (ev : Event) : bool :=
  match ev with
  | Invoke m' => method_eqb m m'
  | _ => false
  end.

Definition invocations (m : Method) (t : list Event) : nat :=
  List.length (filter (invoked m) t).

(* ================================================================== *)
(** * The specification's wording of the Celsius conversion *)
(* ================================================================== *)

(** [k/2] is [celsius] rounded to the nearest 0.5, a tie going upwards. *)
Definition nearest_half_up (celsius : Q) (k : Z) : Prop :=
  (k # 2 <= celsius + (1 # 4))%Q /\ (celsius + (1 # 4) < (k + 1) # 2)%Q.

(** [16 + (celsius - 8) / 0.5]. *)
Definition device_formula (celsius : Q) : Q :=
  (16 + (celsius - 8) / (1 # 2))%Q.

(** Below 16 becomes 253; above 56, unless already 253 or 254, becomes 254. *)
Definition clamp_spec (device : Q) : Num :=
  if JS.Qltb device 16 then lit 253
  else if JS.Qltb 56 device
          && negb (Qeq_bool device 253) && negb (Qeq_bool device 254)
       then lit 254
       else JS.fin device.

(** The two halves of the numeric part of [celsiusOnOffToFritz], named for
    reasoning: the Celsius-to-device formula and the clamp. *)
Definition formula_code (n : Num) : Num :=
  (lit 16 + (JS.Math_round (n * lit 2) / lit 2 - lit 8) / half)%num.

Definition clamp_code (converted : Num) : Num :=
  if (converted <? lit 16)%num then lit 253
  else if (converted >? lit 56)%num && negb (converted =? lit 253)%num
       then lit 254
       else converted.

(** The half-degree grid of the device range, as numerators over 2, and the
    round trip checked at one grid point. *)
Definition grid : list Z := map Z.of_nat (seq 16 41).

Definition round_trip_at (k : Z) : bool :=
  match fritzToCelsiusOnOff (VNum (clamp_spec (device_formula (k # 2)))) with
  | VNum (JS.Fin r) => Qeq_bool r (k # 2)
  | _ => false
  end.

(** No character of the field is the separator. *)
Fixpoint free_of (sep : ascii) (s : string) : bool :=
  match s with
  | EmptyString => true
  | String c r => negb (Ascii.eqb c sep) && free_of sep r
  end.

(* ================================================================== *)
(** * Shapes of response texts *)
(* ================================================================== *)

(** Every character is a decimal digit. *)
Fixpoint all_digits (s : string) : bool :=
  match s with
  | EmptyString => true
  | String c r => is_digit c && all_digits r
  end.
















(* ================================================================== *)
(** * Command dispatch *)
(* ================================================================== *)

Definition COMMAND_ROUTE : string := "/webservices/homeautoswitch.lua?".

(** [String(err)] of a thrown error: its name and its message. *)
Definition Exn_toString (e : Exn) : string :=
  let render (name m : string) :=
    match m with
    | EmptyString => name
    | _ => name ++ ": " ++ m
    end in
  match e with
  | Error m => render "Error" m
  | TypeError m => render "TypeError" m
  | ReferenceError m => render "ReferenceError" m
  end.

(** ['sid=' + sid]: a [null] session id is spelled out. *)
Definition sid_text (sid : option string) : string :=
  match sid with
  | Some s => s
  | None => "null"
  end.

(** One turn of the loop of [sendCommand]. *)
Definition add_parameter (url : string) (kv : string * Value) : string :=
  url ++ "&" ++ fst kv ++ "=" ++ ToString (snd kv).

(** The number a key stands for when it is an array index: a decimal
    numeral without a leading zero, below 2^32 - 1. *)
Definition array_index (key : string) : option Z :=
  match key with
  | EmptyString => None
  | String c r =>
      if all_digits key && (negb (Ascii.eqb c "0") || String.eqb r EmptyString)
      then
        let value := digits_value 10 (fst (span_digits 10 key)) in
        if (value <=? 4294967294)%Z then Some value else None
      else None
  end.

(** Insertion into a list of indexed entries kept in ascending order. *)
Fixpoint insert_indexed (i : Z) (kv : string * Value)
    (l : list (Z * (string * Value))) : list (Z * (string * Value)) :=
  match l with
  | [] => [(i, kv)]
  | (j, kv') :: r =>
      if (i <? j)%Z then (i, kv) :: l else (j, kv') :: insert_indexed i kv r
  end.

(** The entries a [for ... in] loop visits: those whose key is an array
    index first, by ascending index, then the others in insertion order. *)
Definition for_in (o : Arguments) : Arguments :=
  let indexed :=
    fold_left
      (fun acc kv =>
         match array_index (fst kv) with
         | Some i => insert_indexed i kv acc
         | None => acc
         end)
      o [] in
  let named :=
    filter (fun kv => match array_index (fst kv) with
                      | Some _ => false
                      | None => true
                      end) o in
  (map snd indexed ++ named)%list.

(** The URL [sendCommand] builds. *)
Definition command_url (sid : option string) (arguments : Arguments) : string :=
  fold_left add_parameter (for_in arguments)
    (BOX_URL ++ COMMAND_ROUTE ++ "sid=" ++ sid_text sid).

(** The text one parameter adds to the URL, and that of a list of them. *)
Definition parameter_text (kv : string * Value) : string :=
  "&" ++ fst kv ++ "=" ++ ToString (snd kv).

Definition query (arguments : Arguments) : string :=
  fold_right (fun kv rest => parameter_text kv ++ rest) EmptyString arguments.

Definition command_request (sid : option string) (arguments : Arguments) : Request :=
  {| url := command_url sid arguments; method := "GET"; body := None |}.

(** [async sendCommand(sid, arguments)]. *)
Definition sendCommand (box : Box) (sid : option string) (arguments : Arguments)
  : M string :=
  try_catch
    (load box (command_request sid arguments))
    (fun err => throw (Error ("Failed to send command! " ++ Exn_toString err))).

(** A key spelled like an array index: digits only. *)
Definition index_like (key : string) : bool :=
  match key with
  | EmptyString => false
  | _ => all_digits key
  end.

Definition plain_keys (arguments : Arguments) : bool :=
  forallb (fun kv => negb (index_like (fst kv))) arguments.

(* ================================================================== *)
(** * Start arguments *)
(* ================================================================== *)

(** The constants of the script that steer a run. *)
Record RunSettings : Type := {
  REMEMBER_CREDENTIALS : bool;
  TEST_ARGS_ENABLED : bool;
  TEST_ARGS : option Arguments
}.

Definition SCRIPT_ID : string := "Fritz".

(** The values the script ships with. *)
Definition shipped_run : RunSettings :=
  {| REMEMBER_CREDENTIALS := true;
     TEST_ARGS_ENABLED := false;
     TEST_ARGS := Some [("ain", VStr "012340000123");
                        ("switchcmd", VStr "sethkrtsoll");
                        ("param", VStr "19.5")] |}.

(** The host's [args]: the shortcut parameter ([null], or an object) and
    the query parameters of the URL scheme. *)
Record ScriptArgs : Type := {
  shortcutParameter : option Arguments;
  queryParameters : Arguments
}.

(** [delete o.key]. *)
Definition delete (key : string) (o : Arguments) : Arguments :=
  filter (fun kv => negb (String.eqb (fst kv) key)) o.

(** [key in o]. *)
Definition has_key (key : string) (o : Arguments) : bool :=
  existsb (fun kv => String.eqb (fst kv) key) o.

(** [getInputArgs()]. *)
Definition getInputArgs (run : RunSettings) (args : ScriptArgs) : Result Arguments :=
  match TEST_ARGS run, TEST_ARGS_ENABLED run with
  | Some test_args, true => Ok test_args
  | _, _ =>
      let arguments :=
        match shortcutParameter args with
        | Some p => Some p
        | None =>
            if negb (Nat.eqb (List.length (queryParameters args)) 0)
            then Some (queryParameters args)
            else None
        end in
      match arguments with
      | None => Throw (Error "No start arguments were passed to the script")
      | Some arguments =>
          Ok (if has_key "scriptName" arguments
              then delete "scriptName" arguments
              else arguments)
      end
  end.

(* ================================================================== *)
(** * LoginManager *)
(* ================================================================== *)

(** The keychain: its entries, and the keys it refuses to write or remove
    (a failure the script guards against with [try]/[catch]). *)
Record Store : Type := {
  entries : string -> option string;
  denied : string -> bool
}.

(** [Keychain.get(key)]: throws for a key that is not there. *)
Definition Keychain_get (key : string) (st : Store) : Result string :=
  match entries st key with
  | Some v => Ok v
  | None => Throw (Error "The key does not exist in the keychain")
  end.

(** [Keychain.set(key, value)]. *)
Definition Keychain_set (key value : string) (st : Store) : Result Store :=
  if denied st key then Throw (Error "The keychain could not be written")
  else Ok {| entries := fun k => if String.eqb k key then Some value
                                  else entries st k;
             denied := denied st |}.

(** [Keychain.remove(key)]. *)
Definition Keychain_remove (key : string) (st : Store) : Result Store :=
  if denied st key then Throw (Error "The keychain could not be written")
  else Ok {| entries := fun k => if String.eqb k key then None
                                  else entries st k;
             denied := denied st |}.

(** The fields of a [LoginManager]; an [undefined] script id is [None]. *)
Record LoginManager : Type := {
  this_SCRIPT_ID : option string;
  this_REMEMBER_CREDENTIALS : bool
}.

(** [new LoginManager(scriptID, rememberCredentials = true)]; the guard reads
    the global [REMEMBER_CREDENTIALS], not the argument. *)
Definition new_LoginManager (run : RunSettings)
    (scriptID : option string) (rememberCredentials : option bool)
  : Result LoginManager :=
  match scriptID, REMEMBER_CREDENTIALS run with
  | None, true => Throw (Error "scriptID is undefined")
  | _, _ =>
      Ok {| this_SCRIPT_ID := scriptID;
            this_REMEMBER_CREDENTIALS :=
              match rememberCredentials with
              | Some b => b
              | None => true
              end |}
  end.

(** [this.SCRIPT_ID + suffix]. *)
Definition keychain_key (lm : LoginManager) (suffix : string) : string :=
  match this_SCRIPT_ID lm with
  | Some id => id ++ suffix
  | None => "undefined" ++ suffix
  end.

(** The manager [main] creates: [new LoginManager(SCRIPT_ID,
    REMEMBER_CREDENTIALS)]. *)
Definition script_login_manager (run : RunSettings) : LoginManager :=
  {| this_SCRIPT_ID := Some SCRIPT_ID;
     this_REMEMBER_CREDENTIALS := REMEMBER_CREDENTIALS run |}.

(** The object [{ user: ..., pass: ... }]. *)
Record Credentials : Type := {
  user : string;
  pass : string
}.

(** [getRememberedCredentials()]; [None] is [undefined]. *)
Definition getRememberedCredentials (lm : LoginManager) (st : Store)
  : option Credentials :=
  match Keychain_get (keychain_key lm "user") st with
  | inl _ => None
  | inr u =>
      match Keychain_get (keychain_key lm "pass") st with
      | inl _ => None
      | inr p => Some {| user := u; pass := p |}
      end
  end.

(** [saveCredentials(user, pass)]: the flag it returns and the keychain it
    leaves. *)
Definition saveCredentials (lm : LoginManager) (u p : string) (st : Store)
  : bool * Store :=
  match Keychain_set (keychain_key lm "user") u st with
  | inl _ => (false, st)
  | inr st1 =>
      match Keychain_set (keychain_key lm "pass") p st1 with
      | inl _ => (false, st1)
      | inr st2 => (true, st2)
      end
  end.

(** [deleteCredentials()]. *)
Definition deleteCredentials (lm : LoginManager) (st : Store) : bool * Store :=
  match Keychain_remove (keychain_key lm "user") st with
  | inl _ => (false, st)
  | inr st1 =>
      match Keychain_remove (keychain_key lm "pass") st1 with
      | inl _ => (false, st1)
      | inr st2 => (true, st2)
      end
  end.

(** What the user does with the two alerts: the index [alert.present()]
    resolves to (-1 is the cancel action) and the text of the two fields. *)
Record UI : Type := {
  login_response : Z;
  login_username : string;
  login_password : string;
  remember_response : Z
}.

(** Steps of a whole run: those of the session layer, and the alerts, the
    error log, the shortcut output and the completion call. *)
Inductive Step : Type :=
| Session (ev : Event)
| AlertPresent (title : string)
| ConsoleError (err : Exn)
| SetShortcutOutput (text : string)
| ScriptComplete.

(** [async showLoginAlert()]. *)
Definition showLoginAlert (ui : UI) : list Step * option Credentials :=
  ([AlertPresent "Fritz!Box Login"],
   if (login_response ui =? -1)%Z then None
   else Some {| user := login_username ui; pass := login_password ui |}).

(** [async getCredentials()]. *)
Definition getCredentials (lm : LoginManager) (ui : UI) (st : Store)
  : list Step * option Credentials :=
  if this_REMEMBER_CREDENTIALS lm
     && match getRememberedCredentials lm st with
        | Some _ => true
        | None => false
        end
  then ([], getRememberedCredentials lm st)
  else showLoginAlert ui.

(** [async showRememberAlert()]. *)
Definition showRememberAlert (ui : UI) : list Step * bool :=
  ([AlertPresent "Remember Credentials?"],
   if (remember_response ui =? -1)%Z then false else true).

(** [async updateStoredCredentials(user, pass)]. *)
Definition updateStoredCredentials (lm : LoginManager) (ui : UI)
    (u p : string) (st : Store) : list Step * Store :=
  if this_REMEMBER_CREDENTIALS lm then
    match getRememberedCredentials lm st with
    | None =>
        let '(steps, remember) := showRememberAlert ui in
        if remember then (steps, snd (saveCredentials lm u p st))
        else (steps, st)
    | Some _ => ([], st)
    end
  else ([], snd (deleteCredentials lm st)).

(* ================================================================== *)
(** * main *)
(* ================================================================== *)

(** The steps of a computation of the session layer. *)
Definition session_steps {A : Type} (m : M A) : list Step :=
  map Session (trace m).

(** [parseResponse(response, arguments.switchcmd)]: a verb that is missing
    or not a string is in no list of verbs. *)
Definition parseResponse_for (cfg : Settings) (response : string)
    (arguments : Arguments) : string :=
  match get "switchcmd" arguments with
  | Some (VStr verb) => parseResponse cfg response verb
  | _ => "Response: " ++ response
  end.

(** How the [try] block of [main] ends. *)
Inductive Ending : Type :=
| Returned        (* [return undefined]: the function is left *)
| Finished        (* the block ran to its end *)
| Raised (err : Exn).

(** The [try] block of [main]: its steps, the keychain it leaves and how
    it ends. *)
Definition main_try {crypto : Crypto} (cfg : Settings) (run : RunSettings)
    (box : Box) (ui : UI) (args : ScriptArgs) (st : Store)
  : list Step * Store * Ending :=
  match getInputArgs run args with
  | inl err => ([], st, Raised err)
  | inr arguments =>
  match parseArgs cfg arguments with
  | inl err => ([], st, Raised err)
  | inr arguments =>
  match new_LoginManager run (Some SCRIPT_ID) (Some (REMEMBER_CREDENTIALS run)) with
  | inl err => ([], st, Raised err)
  | inr loginManager =>
  let '(steps1, credentials) := getCredentials loginManager ui st in
  match credentials with
  | None => (steps1, st, Returned)
  | Some credentials =>
  let handshake := create cfg box (user credentials) (pass credentials) in
  let steps2 := (steps1 ++ session_steps handshake)%list in
  match outcome handshake with
  | inl err => (steps2, st, Raised err)
  | inr sid =>
  let '(steps3, st) :=
    updateStoredCredentials loginManager ui
      (user credentials) (pass credentials) st in
  let command := sendCommand box sid arguments in
  let steps4 := (steps2 ++ steps3 ++ session_steps command)%list in
  match outcome command with
  | inl err => (steps4, st, Raised err)
  | inr response =>
  let response := parseResponse_for cfg response arguments in
  ((steps4 ++ session_steps (showNotification cfg response)
           ++ [SetShortcutOutput response])%list,
   st, Finished)
  end end end end end end.

(** [async main()]: the steps of the run and the keychain it leaves. *)
Definition main {crypto : Crypto} (cfg : Settings) (run : RunSettings)
    (box : Box) (ui : UI) (args : ScriptArgs) (st : Store)
  : list Step * Store :=
  let '(steps, st', ending) := main_try cfg run box ui args st in
  match ending with
  | Returned => (steps, st')
  | Finished => ((steps ++ [ScriptComplete])%list, st')
  | Raised err =>
      ((steps ++ [ConsoleError err]
              ++ session_steps (showNotification cfg (Exn_toString err))
              ++ [ScriptComplete])%list,
       st')
  end.

(** The requests among the steps of a run, and among those of the session
    layer. *)
Definition request_of (ev : Event) : list Request :=
  match ev with
  | Load r => [r]
  | _ => []
  end.

Definition requests (t : list Event) : list Request := flat_map request_of t.

Definition step_requests (s : Step) : list Request :=
  match s with
  | Session ev => request_of ev
  | _ => []
  end.

Definition run_requests (steps : list Step) : list Request :=
  flat_map step_requests steps.

Definition step_alerts (s : Step) : list string :=
  match s with
  | AlertPresent title => [title]
  | _ => []
  end.

Definition alerts (steps : list Step) : list string := flat_map step_alerts steps.

Definition step_outputs (s : Step) : list string :=
  match s with
  | SetShortcutOutput text => [text]
  | _ => []
  end.

Definition outputs (steps : list Step) : list string := flat_map step_outputs steps.

Definition step_errors (s : Step) : list Exn :=
  match s with
  | ConsoleError err => [err]
  | _ => []
  end.

Definition errors (steps : list Step) : list Exn := flat_map step_errors steps.

(** The delays of the timers armed among the steps of the session layer. *)
Definition timer_of (ev : Event) : list Num :=
  match ev with
  | TimerSchedule ms => [ms]
  | _ => []
  end.

Definition timers (t : list Event) : list Num := flat_map timer_of t.

(** The number a decimal numeral spells. *)
Definition numeral_value (ds : string) : Z :=
  digits_value 10 (fst (span_digits 10 ds)).

(** A valid device value: 16..56, or one of the two sentinels. *)
Definition device_value (z : Z) : bool :=
  ((16 <=? z) && (z <=? 56) || (z =? 253) || (z =? 254))%Z.

(** The clamp of [celsiusOnOffToFritz], on integers. *)
Definition clamp_Z (k : Z) : Z :=
  if (k <? 16)%Z then 253%Z
  else if ((56 <? k) && negb (k =? 253) && negb (k =? 254))%Z then 254%Z
  else k.

(** A simulated phone, for running the model: keychains, users, start
    arguments. *)
Module SimHost.

Definition empty_keychain : Store :=
  {| entries := fun _ => None; denied := fun _ => false |}.

(** A keychain that holds a pair for the script. *)
Definition keychain_with (u p : string) : Store :=
  {| entries := fun k =>
       if String.eqb k "Fritzuser" then Some u
       else if String.eqb k "Fritzpass" then Some p
       else None;
     denied := fun _ => false |}.

(** A keychain that holds a pair and takes no new password. *)
Definition keychain_password_locked (u p : string) : Store :=
  {| entries := entries (keychain_with u p);
     denied := fun k => String.eqb k "Fritzpass" |}.

(** A user who logs in and agrees to remember, and one who cancels. *)
Definition user_logs_in (u p : string) : UI :=
  {| login_response := 0; login_username := u; login_password := p;
     remember_response := 0 |}.

Definition user_cancels : UI :=
  {| login_response := -1; login_username := EmptyString;
     login_password := EmptyString; remember_response := -1 |}.

Definition from_url (query : Arguments) : ScriptArgs :=
  {| shortcutParameter := None; queryParameters := query |}.

Definition manager : LoginManager :=
  {| this_SCRIPT_ID := Some "Fritz"; this_REMEMBER_CREDENTIALS := true |}.

End SimHost.

(* ================================================================== *)
(** * Laws of the effect monad *)
(* ================================================================== *)

Lemma trace_bind {A B} (m : M A) (f : A -> M B) :
  trace (bind m f)
  = (trace m ++ match outcome m with
                | inl _ => []
                | inr a => trace (f a)
                end)%list.
Proof.
  destruct m as [t [e | a]]; simpl.
  - now rewrite app_nil_r.
  - now destruct (f a).
Qed.

Lemma outcome_bind {A B} (m : M A) (f : A -> M B) :
  outcome (bind m f)
  = match outcome m with
    | inl e => inl e
    | inr a => outcome (f a)
    end.
Proof.
  destruct m as [t [e | a]]; simpl; [reflexivity | now destruct (f a)].
Qed.

Lemma trace_try_catch {A} (m : M A) (h : Exn -> M A) :
  trace (try_catch m h)
  = (trace m ++ match outcome m with
                | inl e => trace (h e)
                | inr _ => []
                end)%list.
Proof.
  destruct m as [t [e | a]]; simpl.
  - now destruct (h e).
  - now rewrite app_nil_r.
Qed.

Lemma outcome_try_catch {A} (m : M A) (h : Exn -> M A) :
  outcome (try_catch m h)
  = match outcome m with
    | inl e => outcome (h e)
    | inr a => inr a
    end.
Proof.
  destruct m as [t [e | a]]; simpl; [now destruct (h e) | reflexivity].
Qed.

Lemma stages_app (t u : list Event) :
  stages (t ++ u) = (stages t ++ stages u)%list.
Proof. apply flat_map_app. Qed.

Lemma invocations_app (m : Method) (t u : list Event) :
  invocations m (t ++ u) = (invocations m t + invocations m u)%nat.
Proof. unfold invocations. now rewrite filter_app, length_app. Qed.

Create Rewrite HintDb run.
#[local] Hint Rewrite @trace_bind @outcome_bind @trace_try_catch
  @outcome_try_catch stages_app invocations_app : run.

(** Unfold the effect layer and keep the stages folded. *)
Ltac run :=
  repeat progress
    (autorewrite with run;
     cbn [trace outcome fst snd emit ret throw lift Ok Throw app]).

(* ================================================================== *)
(** * Facts about the stages of a handshake *)
(* ================================================================== *)

Section Handshake.

Context {crypto : Crypto}.
Variable cfg : Settings.
Variable box : Box.

Lemma getLoginState_stages : stages (trace (getLoginState box)) = [Fetch].
Proof.
  unfold getLoginState, load. run.
  destruct (loadString box login_request) as [e | response]; cbn; [reflexivity|].
  destruct (fold_left _ _ _) as [[? [c|]] ?]; reflexivity.
Qed.


Lemma solve_stages (st : LoginState) (pass : string) :
  stages (trace (solve st pass)) = [Solve].
Proof.
  unfold solve. destruct (isPbkdf2 st); run; reflexivity.
Qed.

Lemma wait_stages (st : LoginState) :
  stages (trace (wait cfg st))
  = if (blockTime_number st >? lit 0)%num then [Wait] else [].
Proof.
  unfold wait, showNotification.
  destruct (blockTime_number st >? lit 0)%num; [|reflexivity].
  destruct (SHOW_NOTIFICATIONS cfg); reflexivity.
Qed.

Lemma wait_outcome (st : LoginState) : outcome (wait cfg st) = Ok tt.
Proof.
  unfold wait, showNotification.
  destruct (blockTime_number st >? lit 0)%num; [|reflexivity].
  destruct (SHOW_NOTIFICATIONS cfg); reflexivity.
Qed.


Lemma sendResponse_stages (user cr : string) :
  stages (trace (sendResponse box user cr)) = [Submit].
Proof.
  unfold sendResponse, load. run.
  destruct (loadString box _) as [e | response]; reflexivity.
Qed.

Lemma sendResponse_outcome (user cr : string) :
  outcome (sendResponse box user cr)
  = match loadString box (submit_request user cr) with
    | inl e => Throw e
    | inr response => Ok (parsed_sid box response)
    end.
Proof.
  unfold sendResponse, load. run.
  destruct (loadString box _) as [e | response]; reflexivity.
Qed.

(** The outcome of [create], stage by stage. *)
Lemma create_outcome (user pass : string) :
  outcome (create cfg box user pass)
  = match outcome (getLoginState box) with
    | inl e => Throw (Error ("Failed to login! " ++ message e))
    | inr st =>
        match outcome (solve st pass) with
        | inl e => Throw (Error ("Failed to login! " ++ message e))
        | inr cr =>
            match outcome (sendResponse box user cr) with
            | inl e => Throw (Error ("Failed to login! " ++ message e))
            | inr (Some s) =>
                if String.eqb s REJECTED_SID
                then Throw (Error "Failed to login! Wrong username or password")
                else Ok (Some s)
            | inr None => Ok None
            end
        end
    end.
Proof.
  unfold create. run.
  destruct (outcome (getLoginState box)) as [e | st]; [reflexivity|]. run.
  destruct (outcome (solve st pass)) as [e | cr]; [reflexivity|]. run.
  rewrite wait_outcome. run.
  destruct (outcome (sendResponse box user cr)) as [e | [s|]]; try reflexivity.
  destruct (String.eqb s REJECTED_SID); reflexivity.
Qed.

(** The stages of [create], stage by stage. *)
Lemma create_stages (user pass : string) :
  stages (trace (create cfg box user pass))
  = match outcome (getLoginState box) with
    | inl _ => [Fetch]
    | inr st =>
        match outcome (solve st pass) with
        | inl _ => [Fetch; Solve]
        | inr _ =>
            if (blockTime_number st >? lit 0)%num
            then [Fetch; Solve; Wait; Submit]
            else [Fetch; Solve; Submit]
        end
    end.
Proof.
  unfold create. run. rewrite getLoginState_stages.
  destruct (outcome (getLoginState box)) as [e | st]; [reflexivity|]. run.
  rewrite solve_stages.
  destruct (outcome (solve st pass)) as [e | cr]; [reflexivity|]. run.
  rewrite wait_stages, wait_outcome. run. rewrite sendResponse_stages.
  destruct (blockTime_number st >? lit 0)%num;
    destruct (outcome (sendResponse box user cr)) as [e | [s|]]; try reflexivity;
    destruct (String.eqb s REJECTED_SID); reflexivity.
Qed.





(** A response without a [SID] element leaves [sid] at [null]. *)
Lemma sid_handlers_no_element (evs : list XmlEvent) :
  ~ In (didStartElement "SID") evs ->
  forall ce, ce <> Some "SID" ->
  snd (fold_left sid_handlers evs (ce, None)) = None.
Proof.
  induction evs as [| ev evs IH]; intros Hno ce Hce; [reflexivity|].
  cbn [fold_left].
  assert (Hno' : ~ In (didStartElement "SID") evs) by (intros H; apply Hno; now right).
  destruct ev as [name | name | value]; cbn [sid_handlers].
  - destruct (String.eqb_spec name "SID") as [-> | Hname].
    + exfalso. apply Hno. now left.
    + now apply IH.
  - now apply IH.
  - destruct ce as [ce|]; [|now apply IH].
    destruct (String.eqb_spec ce "SID") as [-> | Hne]; [congruence|].
    assert (match ce with
            | "SID" => (Some EmptyString, Some value)
            | _ => (Some ce, @None string)
            end = (Some ce, None)) as ->.
    { clear -Hne.
      repeat (match goal with
              | |- context [match ?x with _ => _ end] =>
                  destruct x; try reflexivity
              end); congruence. }
    now apply IH.
Qed.

End Handshake.

(* ================================================================== *)
(** * Challenge solver *)
(* ================================================================== *)

(** Project the fields out of a [login_state]. *)
Ltac login_state_fields := unfold login_state; cbn [isPbkdf2 challenge blockTime].

(** [split] undoes joining fields that are free of the separator. *)
Lemma split_field (sep : ascii) (f rest : string) :
  free_of sep f = true ->
  split sep (f ++ String sep rest) = f :: split sep rest.
Proof.
  induction f as [| c f IH]; cbn [append split free_of]; intros Hf.
  - now rewrite Ascii.eqb_refl.
  - apply andb_true_iff in Hf as [Hc Hf]. apply negb_true_iff in Hc.
    now rewrite Hc, (IH Hf).
Qed.

Lemma split_last (sep : ascii) (f : string) :
  free_of sep f = true -> split sep f = [f].
Proof.
  induction f as [| c f IH]; cbn [split free_of]; intros Hf; [reflexivity|].
  apply andb_true_iff in Hf as [Hc Hf]. apply negb_true_iff in Hc.
  now rewrite Hc, (IH Hf).
Qed.

Lemma split_five (sep : ascii) (f1 f2 f3 f4 f5 : string) :
  free_of sep f1 = true -> free_of sep f2 = true -> free_of sep f3 = true ->
  free_of sep f4 = true -> free_of sep f5 = true ->
  split sep (f1 ++ String sep (f2 ++ String sep (f3 ++ String sep
               (f4 ++ String sep f5))))
  = [f1; f2; f3; f4; f5].
Proof.
  intros H1 H2 H3 H4 H5.
  now rewrite !split_field, split_last.
Qed.

(** C1.  For a challenge that starts with "2$" and splits on '$' into the
    five fields tag, iter1, salt1, iter2, salt2, the solving step returns
    salt2, "$" and the hex text of hash2, where
    hash1 = PBKDF2-SHA256(secret, hex-decoded salt1, iter1 iterations, 256 bits)
    and hash2 = PBKDF2-SHA256(hash1, hex-decoded salt2, iter2 iterations,
    256 bits). *)
Theorem solve_pbkdf2_response {crypto : Crypto}
    (challenge secret tag iter1 salt1 iter2 salt2 : string)
    (blockTime : option string) :
  startsWith challenge "2$" = true ->
  split "$" challenge = [tag; iter1; salt1; iter2; salt2] ->
  let hash1 := PBKDF2 (inl secret) (Hex_parse salt1)
                 (sha256_256bit (StringToNumber iter1)) in
  let hash2 := PBKDF2 (inr hash1) (Hex_parse salt2)
                 (sha256_256bit (StringToNumber iter2)) in
  outcome (solve (login_state challenge blockTime) secret)
  = Ok (salt2 ++ "$" ++ WordArray_toString hash2).
Proof.
  intros Hprefix Hsplit hash1 hash2.
  unfold solve. login_state_fields.
  rewrite Hprefix. run.
  unfold calculatePbkdf2Response. rewrite Hsplit. reflexivity.
Qed.

Lemma solve_pbkdf2_response_witness :
  startsWith "2$10000$5A1711$2000$AA00" "2$" = true
  /\ split "$" "2$10000$5A1711$2000$AA00" = ["2"; "10000"; "5A1711"; "2000"; "AA00"]
  /\ outcome (solve (crypto := Sim.crypto_js)
                (login_state "2$10000$5A1711$2000$AA00" (Some "0")) "secret")
     = Ok "AA00$pbkdf2(pbkdf2(secret,hex(5A1711),10000),hex(AA00),2000)".
Proof.
  split; [reflexivity|]. split; [reflexivity|].
  apply (solve_pbkdf2_response (crypto := Sim.crypto_js)
           "2$10000$5A1711$2000$AA00" "secret" "2" "10000" "5A1711" "2000" "AA00"
           (Some "0")); reflexivity.
Defined.

(** C2.  For a challenge that does not start with "2$" the solving step
    calls [Buffer.from] and [CRYPTO.createHash].  On a host that defines no
    [Buffer] it raises a ReferenceError, and a handshake that fetched such a
    challenge raises "Failed to login! " followed by the engine's message;
    on a host with [Buffer] whose [CRYPTO] has no [createHash] it raises a
    TypeError.  Only on a host that has both does it return the challenge,
    "-" and the hex MD5 digest of the UTF-16LE bytes of
    challenge ++ "-" ++ secret. *)
Theorem solve_md5_needs_node_host {crypto : Crypto}
    (challenge secret : string) (blockTime : option string) :
  startsWith challenge "2$" = false ->
  let result := outcome (solve (login_state challenge blockTime) secret) in
  (Buffer_from = None ->
     result = Throw (ReferenceError (not_defined "Buffer")))
  /\ (forall from, Buffer_from = Some from -> Hash_digest = None ->
        result = Throw (TypeError (not_a_function "CRYPTO.createHash")))
  /\ (forall from digest, Buffer_from = Some from -> Hash_digest = Some digest ->
        result = Ok (challenge ++ "-"
                     ++ digest "md5"
                          (from (challenge ++ "-" ++ secret) "utf16le") "hex"))
  /\ (forall (cfg : Settings) (box : Box) (user : string),
        Buffer_from = None ->
        outcome (getLoginState box) = Ok (login_state challenge blockTime) ->
        outcome (create cfg box user secret)
        = Throw (Error ("Failed to login! " ++ not_defined "Buffer"))).
Proof.
  intros Hprefix result.
  assert (Hsolve : result
                   = calculateMd5Response challenge secret).
  { subst result. unfold solve. login_state_fields.
    rewrite Hprefix. run. reflexivity. }
  repeat split.
  - intros Hbuffer. rewrite Hsolve. unfold calculateMd5Response.
    now rewrite Hbuffer.
  - intros from Hbuffer Hhash. rewrite Hsolve. unfold calculateMd5Response.
    now rewrite Hbuffer, Hhash.
  - intros from digest Hbuffer Hhash. rewrite Hsolve.
    unfold calculateMd5Response. now rewrite Hbuffer, Hhash.
  - intros cfg box user Hbuffer Hstate.
    rewrite create_outcome, Hstate. cbv beta iota delta [Ok].
    fold result. rewrite Hsolve. unfold calculateMd5Response.
    now rewrite Hbuffer.
Qed.

Lemma solve_md5_needs_node_host_witness :
  let box := Sim.box (Ok (Sim.login_info "abcdef01" "0"))
                     (Ok (Sim.session_info "0123456789abcdef")) in
  startsWith "abcdef01" "2$" = false
  /\ outcome (solve (crypto := Sim.crypto_js) (login_state "abcdef01" (Some "0")) "pw")
     = Throw (ReferenceError "Can't find variable: Buffer")
  /\ outcome (create (crypto := Sim.crypto_js) shipped box "user" "pw")
     = Throw (Error "Failed to login! Can't find variable: Buffer")
  /\ outcome (solve (crypto := Sim.crypto) (login_state "abcdef01" (Some "0")) "pw")
     = Ok "abcdef01-md5(utf16le(abcdef01-pw))".
Proof.
  intros box.
  assert (Hprefix : startsWith "abcdef01" "2$" = false) by reflexivity.
  pose proof (solve_md5_needs_node_host (crypto := Sim.crypto_js)
                "abcdef01" "pw" (Some "0") Hprefix) as [Hno [_ [_ Hcreate]]].
  pose proof (solve_md5_needs_node_host (crypto := Sim.crypto)
                "abcdef01" "pw" (Some "0") Hprefix) as [_ [_ [Hboth _]]].
  split; [exact Hprefix|].
  split; [exact (Hno eq_refl)|].
  split; [exact (Hcreate shipped box "user" eq_refl eq_refl)|].
  exact (Hboth _ _ eq_refl eq_refl).
Defined.



(* ================================================================== *)
(** * Session negotiator *)
(* ================================================================== *)

(** C3.  When the submit step yields the SID "0000000000000000", [create]
    raises "Failed to login! Wrong username or password"; and no handshake
    whatever returns that SID as its result. *)
Theorem create_rejects_sentinel_sid {crypto : Crypto}
    (cfg : Settings) (box : Box) (user pass : string) :
  (forall (st : LoginState) (cr : string),
      outcome (getLoginState box) = Ok st ->
      outcome (solve st pass) = Ok cr ->
      outcome (sendResponse box user cr) = Ok (Some "0000000000000000") ->
      outcome (create cfg box user pass)
      = Throw (Error "Failed to login! Wrong username or password"))
  /\ outcome (create cfg box user pass) <> Ok (Some "0000000000000000").
Proof.
  rewrite create_outcome. split.
  - intros st cr Hst Hcr Hsid.
    rewrite Hst. cbv beta iota delta [Ok].
    rewrite Hcr. cbv beta iota delta [Ok].
    rewrite Hsid. reflexivity.
  - destruct (outcome (getLoginState box)) as [e | st]; [discriminate|].
    destruct (outcome (solve st pass)) as [e | cr]; [discriminate|].
    destruct (outcome (sendResponse box user cr)) as [e | [s|]]; try discriminate.
    destruct (String.eqb_spec s REJECTED_SID) as [-> | Hne]; [discriminate|].
    intros [= ->]. now apply Hne.
Qed.

Lemma create_rejects_sentinel_sid_witness :
  let box := Sim.box (Ok (Sim.login_info "2$10000$5A1711$2000$AA00" "0"))
                     (Ok (Sim.session_info "0000000000000000")) in
  outcome (getLoginState box) = Ok (login_state "2$10000$5A1711$2000$AA00" (Some "0"))
  /\ outcome (solve (crypto := Sim.crypto_js)
                (login_state "2$10000$5A1711$2000$AA00" (Some "0")) "pw")
     = Ok "AA00$pbkdf2(pbkdf2(pw,hex(5A1711),10000),hex(AA00),2000)"
  /\ outcome (sendResponse box "user" "AA00$pbkdf2(pbkdf2(pw,hex(5A1711),10000),hex(AA00),2000)")
     = Ok (Some "0000000000000000")
  /\ outcome (create (crypto := Sim.crypto_js) shipped box "user" "pw")
     = Throw (Error "Failed to login! Wrong username or password").
Proof.
  intros box.
  split; [reflexivity|]. split; [reflexivity|]. split; [reflexivity|].
  apply (proj1 (create_rejects_sentinel_sid (crypto := Sim.crypto_js)
                  shipped box "user" "pw")
           (login_state "2$10000$5A1711$2000$AA00" (Some "0"))
           "AA00$pbkdf2(pbkdf2(pw,hex(5A1711),10000),hex(AA00),2000)"); reflexivity.
Defined.

(** C4, as the specification words it, fails: with a lock-out of 5 seconds
    the calculator is entered before the timer is armed, so the stages are
    not in the order fetch, wait, solve, submit. *)
Lemma create_solves_before_waiting :
  let box := Sim.box (Ok (Sim.login_info "2$10000$5A1711$2000$AA00" "5"))
                     (Ok (Sim.session_info "0123456789abcdef")) in
  let t := trace (create (crypto := Sim.crypto_js) shipped box "user" "pw") in
  stages t = [Fetch; Solve; Wait; Submit]
  /\ ascending rank_spec (stages t) = false.
Proof. split; reflexivity. Qed.

(** C4, amended.  Every handshake goes through its stages in the order
    fetch, solve, wait, submit: it stops after the fetch when that fails,
    after the solving step when the calculator throws, and otherwise arms
    the timer between solving and submitting exactly when the lock-out time
    is positive.  The calculator is always entered before the wait. *)
Theorem create_stage_order {crypto : Crypto}
    (cfg : Settings) (box : Box) (user pass : string) :
  let l := stages (trace (create cfg box user pass)) in
  ascending rank l = true
  /\ l = match outcome (getLoginState box) with
         | inl _ => [Fetch]
         | inr st =>
             match outcome (solve st pass) with
             | inl _ => [Fetch; Solve]
             | inr _ =>
                 if (blockTime_number st >? lit 0)%num
                 then [Fetch; Solve; Wait; Submit]
                 else [Fetch; Solve; Submit]
             end
         end.
Proof.
  intros l. subst l. rewrite create_stages. split; [|reflexivity].
  destruct (outcome (getLoginState box)) as [e | st]; [reflexivity|].
  destruct (outcome (solve st pass)) as [e | cr]; [reflexivity|].
  destruct (blockTime_number st >? lit 0)%num; reflexivity.
Qed.

(** C6, as stated, fails: a submit response without a SID element makes
    [sendResponse] return [null], and [create] returns that [null] without
    raising. *)
Lemma create_missing_sid_returns_null :
  let box := Sim.box (Ok (Sim.login_info "2$10000$5A1711$2000$AA00" "0"))
                     (Ok "<SessionInfo><BlockTime>0</BlockTime></SessionInfo>") in
  ~ In (didStartElement "SID")
       (XMLParser_parse box "<SessionInfo><BlockTime>0</BlockTime></SessionInfo>")
  /\ outcome (create (crypto := Sim.crypto_js) shipped box "user" "pw") = Ok None
  /\ forall e, outcome (create (crypto := Sim.crypto_js) shipped box "user" "pw")
               <> Throw e.
Proof.
  intros box. split; [|split].
  - cbn. intros H.
    repeat (destruct H as [H | H]; [discriminate H|]). exact H.
  - reflexivity.
  - intros e. discriminate.
Qed.

(** C6, amended.  In a handshake that reached the submit step: a transport
    failure of the POST makes [create] raise "Failed to login! " followed by
    the transport's message; a response without a SID element raises
    nothing, [sendResponse] yields [null] and [create] returns [null]. *)
Theorem create_submit_failures {crypto : Crypto}
    (cfg : Settings) (box : Box) (user pass : string)
    (st : LoginState) (cr : string) :
  outcome (getLoginState box) = Ok st ->
  outcome (solve st pass) = Ok cr ->
  (forall e : Exn,
      loadString box (submit_request user cr) = Throw e ->
      outcome (create cfg box user pass)
      = Throw (Error ("Failed to login! " ++ message e)))
  /\ (forall response : string,
        loadString box (submit_request user cr) = Ok response ->
        ~ In (didStartElement "SID") (XMLParser_parse box response) ->
        outcome (sendResponse box user cr) = Ok None
        /\ outcome (create cfg box user pass) = Ok None).
Proof.
  intros Hst Hcr. rewrite create_outcome, Hst. cbv beta iota delta [Ok].
  rewrite Hcr. cbv beta iota delta [Ok].
  rewrite sendResponse_outcome. split.
  - intros e ->. reflexivity.
  - intros response -> Hno. unfold parsed_sid.
    rewrite (sid_handlers_no_element _ Hno None) by discriminate.
    split; reflexivity.
Qed.

Lemma create_submit_failures_witness :
  let box := Sim.box (Ok (Sim.login_info "2$10000$5A1711$2000$AA00" "0"))
                     (Throw (Error "The request timed out.")) in
  outcome (getLoginState box) = Ok (login_state "2$10000$5A1711$2000$AA00" (Some "0"))
  /\ outcome (solve (crypto := Sim.crypto_js)
                (login_state "2$10000$5A1711$2000$AA00" (Some "0")) "pw")
     = Ok "AA00$pbkdf2(pbkdf2(pw,hex(5A1711),10000),hex(AA00),2000)"
  /\ outcome (create (crypto := Sim.crypto_js) shipped box "user" "pw")
     = Throw (Error "Failed to login! The request timed out.").
Proof.
  intros box.
  assert (Hst : outcome (getLoginState box)
                = Ok (login_state "2$10000$5A1711$2000$AA00" (Some "0")))
    by reflexivity.
  assert (Hcr : outcome (solve (crypto := Sim.crypto_js)
                           (login_state "2$10000$5A1711$2000$AA00" (Some "0")) "pw")
                = Ok "AA00$pbkdf2(pbkdf2(pw,hex(5A1711),10000),hex(AA00),2000)")
    by reflexivity.
  split; [exact Hst|]. split; [exact Hcr|].
  apply (proj1 (create_submit_failures (crypto := Sim.crypto_js)
                  shipped box "user" "pw" _ _ Hst Hcr)
           (Error "The request timed out.")).
  reflexivity.
Defined.

(* ================================================================== *)
(** * Response interpreter *)
(* ================================================================== *)

Lemma startsWith_app (p s : string) : startsWith (p ++ s) p = true.
Proof.
  induction p as [| a p IH]; [reflexivity|].
  cbn. now rewrite Ascii.eqb_refl.
Qed.

Lemma includes_In (l : list string) (x : string) :
  In x l -> includes l x = true.
Proof.
  intros H. unfold includes. apply existsb_exists.
  exists x. split; [exact H | apply String.eqb_refl].
Qed.

Lemma parseResponse_temperature (cfg : Settings) (response verb : string) :
  In verb temperature_verbs -> USE_CELSIUS_ON_OFF cfg = true ->
  parseResponse cfg response verb
  = "Response: " ++ "Heater set to "
    ++ match fritzToCelsiusOnOff (VStr response) with
       | VNum n => Num_toString n ++ "°C"
       | VStr s => s
       end.
Proof.
  intros Hverb Huse. unfold parseResponse.
  now rewrite (includes_In _ _ Hverb), Huse.
Qed.


(** C9.  For a temperature verb with unit conversion on, the output is the
    fixed label "Response: ", the label "Heater set to " and the text run
    through [fritzToCelsiusOnOff], with the degree-Celsius marker appended
    when that is a number; for every verb and either setting the output
    begins with "Response: "; and the raw text "38" gives
    "Response: Heater set to 19°C". *)
Theorem parseResponse_labels (cfg : Settings) (response switchcmd : string) :
  (In switchcmd temperature_verbs -> USE_CELSIUS_ON_OFF cfg = true ->
   parseResponse cfg response switchcmd
   = "Response: " ++ "Heater set to "
     ++ match fritzToCelsiusOnOff (VStr response) with
        | VNum n => Num_toString n ++ "°C"
        | VStr s => s
        end)
  /\ startsWith (parseResponse cfg response switchcmd) "Response: " = true
  /\ (In switchcmd temperature_verbs -> USE_CELSIUS_ON_OFF cfg = true ->
      parseResponse cfg "38" switchcmd = "Response: Heater set to 19°C").
Proof.
  split; [|split].
  - apply parseResponse_temperature.
  - unfold parseResponse.
    destruct (includes temperature_verbs switchcmd && USE_CELSIUS_ON_OFF cfg);
      apply startsWith_app.
  - intros Hverb Huse. rewrite (parseResponse_temperature cfg "38" _ Hverb Huse).
    reflexivity.
Qed.

Lemma parseResponse_labels_witness :
  In "sethkrtsoll" temperature_verbs
  /\ USE_CELSIUS_ON_OFF shipped = true
  /\ parseResponse shipped "38" "sethkrtsoll" = "Response: Heater set to 19°C".
Proof.
  assert (Hverb : In "sethkrtsoll" temperature_verbs) by (cbn; tauto).
  split; [exact Hverb|]. split; [reflexivity|].
  apply (proj2 (proj2 (parseResponse_labels shipped "38" "sethkrtsoll")) Hverb).
  reflexivity.
Defined.

(* ------------------------------------------------------------------ *)
(** ** What [parseInt] reads *)

Lemma is_digit_code (c : ascii) :
  is_digit c = true -> (48 <= code c <= 57)%Z.
Proof.
  unfold is_digit, between. intros H.
  apply andb_true_iff in H as [H1 H2].
  apply Z.leb_le in H1, H2. lia.
Qed.

Lemma digit_not (c d : ascii) :
  is_digit c = true -> is_digit d = false -> Ascii.eqb c d = false.
Proof.
  intros Hc Hd. destruct (Ascii.eqb_spec c d) as [-> | _]; congruence.
Qed.

Lemma skip_ws_digit (c : ascii) (r : string) :
  is_digit c = true -> skip_ws (String c r) = String c r.
Proof.
  intros Hc. apply is_digit_code in Hc.
  assert (H1 : ws1 c = false).
  { unfold ws1, between. apply orb_false_iff. split.
    - apply andb_false_iff. right. apply Z.leb_gt. lia.
    - apply Z.eqb_neq. lia. }
  assert (Hx : forall z, (z < 48 \/ 57 < z)%Z -> (code c =? z)%Z = false)
    by (intros z Hz; apply Z.eqb_neq; lia).
  cbn [skip_ws]. rewrite H1.
  destruct r as [| b [| d r3]]; try reflexivity.
  - unfold ws2. now rewrite (Hx 194%Z) by lia.
  - unfold ws2, ws3. cbv zeta beta iota.
    now rewrite (Hx 194%Z), (Hx 225%Z), (Hx 226%Z), (Hx 227%Z), (Hx 239%Z) by lia.
Qed.

Lemma strip_sign_digit (c : ascii) (r : string) :
  is_digit c = true -> strip_sign (String c r) = (1%Z, String c r).
Proof.
  intros Hc. unfold strip_sign.
  now rewrite !(digit_not c _ Hc) by reflexivity.
Qed.


Lemma digit_value_10 (c : ascii) :
  digit_value 10 c = if is_digit c then Some (code c - 48)%Z else None.
Proof. unfold digit_value. now destruct (is_digit c). Qed.




















(* ================================================================== *)
(** * Temperature codec *)
(* ================================================================== *)

Lemma celsiusOnOffToFritz_number (n : Num) :
  celsiusOnOffToFritz (VNum n)
  = Ok (clamp_code (if negb (n =? lit 253)%num && negb (n =? lit 254)%num
                    then formula_code n else n)).
Proof. reflexivity. Qed.


Lemma Qltb_comp (a a' b b' : Q) :
  a == a' -> b == b' -> JS.Qltb a b = JS.Qltb a' b'.
Proof.
  intros Ha Hb. unfold JS.Qltb. now rewrite (Qcompare_comp a a' Ha b b' Hb).
Qed.

Lemma Qeq_bool_red (D x : Q) : Qeq_bool (Qred D) x = Qeq_bool D x.
Proof.
  now rewrite (Qeqb_comp (Qred D) D (Qred_correct D) x x (Qeq_refl x)).
Qed.

(** The formula of the code is the formula of the specification, applied
    to the input rounded to the nearest half. *)
Lemma formula_code_fin (q : Q) :
  formula_code (Fin q)
  = JS.fin (device_formula (Qfloor (q * 2 + (1 # 2)) # 2)).
Proof.
  unfold formula_code.
  cbn -[Qred Qplus Qmult Qdiv Qopp Qfloor Qminus Qinv].
  assert (Hk : Qfloor (Qred (q * inject_Z 2) + (1 # 2))
               = Qfloor (q * 2 + (1 # 2))).
  { apply Qfloor_comp. rewrite Qred_correct. reflexivity. }
  rewrite Hk. set (k := Qfloor (q * 2 + (1 # 2))).
  unfold JS.fin. f_equal. apply Qred_complete. rewrite !Qred_correct.
  unfold device_formula. rewrite (Qmake_Qdiv k 2). field.
Qed.

Lemma clamp_code_fin (D : Q) : clamp_code (JS.fin D) = clamp_spec D.
Proof.
  unfold clamp_code, clamp_spec.
  cbn -[Qred Qplus Qmult Qdiv Qopp Qfloor Qminus Qinv Qeq_bool].
  rewrite (Qltb_comp (Qred D) D (inject_Z 16) 16 (Qred_correct D) (Qeq_refl _)).
  rewrite (Qltb_comp (inject_Z 56) 56 (Qred D) D (Qeq_refl _) (Qred_correct D)).
  rewrite Qeq_bool_red. change (inject_Z 253) with 253%Q.
  destruct (JS.Qltb D 16); [reflexivity|].
  destruct (JS.Qltb 56 D); [|reflexivity].
  destruct (Qeq_bool D 253); [reflexivity|].
  destruct (Qeq_bool D 254) eqn:E; [|reflexivity].
  cbn [andb negb]. apply Qeq_bool_iff in E.
  unfold JS.fin. now rewrite (Qred_complete D 254 E).
Qed.

(** Every finite input but 253 goes through rounding, formula and clamp. *)
Lemma celsiusOnOffToFritz_finite (q : Q) :
  Qeq_bool q 253 = false ->
  celsiusOnOffToFritz (VNum (Fin q))
  = Ok (clamp_spec (device_formula (Qfloor (q * 2 + (1 # 2)) # 2))).
Proof.
  intros H253. rewrite celsiusOnOffToFritz_number.
  cbn [JS.eqb lit JS.of_Z]. change (inject_Z 253) with 253%Q.
  change (inject_Z 254) with 254%Q. rewrite H253. cbn [negb andb].
  destruct (Qeq_bool q 254) eqn:H254; cbn [negb].
  - apply Qeq_bool_iff in H254.
    assert (Hk : Qfloor (q * 2 + (1 # 2)) = 508%Z).
    { rewrite H254. reflexivity. }
    rewrite Hk. unfold clamp_code.
    cbn [JS.lt JS.gt JS.eqb lit JS.of_Z].
    rewrite (Qltb_comp q 254 (inject_Z 16) 16 H254 (Qeq_refl _)).
    rewrite (Qltb_comp (inject_Z 56) 56 q 254 (Qeq_refl _) H254).
    change (inject_Z 253) with 253%Q. rewrite H253. reflexivity.
  - now rewrite formula_code_fin, clamp_code_fin.
Qed.

Lemma nearest_half_up_floor (q : Q) :
  nearest_half_up q (Qfloor (q * 2 + (1 # 2))).
Proof.
  pose proof (Qfloor_le (q * 2 + (1 # 2))) as Hle.
  pose proof (Qlt_floor (q * 2 + (1 # 2))) as Hlt.
  set (k := Qfloor (q * 2 + (1 # 2))) in *.
  clearbody k. unfold nearest_half_up.
  rewrite (Qmake_Qdiv k 2), (Qmake_Qdiv (k + 1) 2).
  rewrite inject_Z_plus in *. change (inject_Z 1) with 1%Q in *.
  change (inject_Z (Z.pos 2)) with 2%Q.
  unfold Qdiv. change (/ 2)%Q with (1 # 2)%Q.
  split; lra.
Qed.

(** C8, as stated, fails: 7.8 rounds to 8.0, which is device value 16, not
    253; and the numeric input 253 skips rounding and formula, staying 253
    where the formula and clamp would give 254. *)
Lemma celsiusOnOffToFritz_7_8_is_16 :
  parseFloat "7.8" = Fin (39 # 5)
  /\ celsiusOnOffToFritz (VNum (Fin (39 # 5))) = Ok (lit 16)
  /\ parseArgs_param (VStr "7.8") = Ok (lit 16)
  /\ lit 16 <> lit 253
  /\ celsiusOnOffToFritz (VNum (lit 253)) = Ok (lit 253)
  /\ clamp_spec (device_formula (Qfloor (253 * 2 + (1 # 2)) # 2)) = lit 254.
Proof. repeat split; try reflexivity. discriminate. Qed.

(** C8, amended.  [parseArgs] maps the texts "off" and "0", in any letter
    case, to 253 and "on" to 254.  Every finite numeric input other than 253
    is rounded to the nearest 0.5 (a tie upwards), mapped by
    16 + (celsius - 8) / 0.5 and clamped: below 16 becomes 253, above 56 and
    not 253 or 254 becomes 254; the input 253 stays 253, NaN stays NaN and
    the infinities clamp.  So 7.8 gives 16 and 40 gives 254. *)
Theorem celsiusOnOffToFritz_conversion :
  (forall s : string,
      toLowerCase s = "off" \/ toLowerCase s = "0" ->
      parseArgs_param (VStr s) = Ok (lit 253))
  /\ (forall s : string,
        toLowerCase s = "on" -> parseArgs_param (VStr s) = Ok (lit 254))
  /\ (forall celsius : Q,
        ~ celsius == 253 ->
        exists k : Z,
          nearest_half_up celsius k
          /\ celsiusOnOffToFritz (VNum (Fin celsius))
             = Ok (clamp_spec (device_formula (k # 2))))
  /\ celsiusOnOffToFritz (VNum (lit 253)) = Ok (lit 253)
  /\ celsiusOnOffToFritz (VNum NaN) = Ok NaN
  /\ celsiusOnOffToFritz (VNum JS.PInf) = Ok (lit 254)
  /\ celsiusOnOffToFritz (VNum JS.NInf) = Ok (lit 253)
  /\ celsiusOnOffToFritz (VNum (Fin (39 # 5))) = Ok (lit 16)
  /\ celsiusOnOffToFritz (VNum (lit 40)) = Ok (lit 254).
Proof.
  split; [|split; [|split; [|repeat split]]].
  - intros s [H | H]; unfold parseArgs_param; cbn [ToString]; rewrite H;
      reflexivity.
  - intros s H. unfold parseArgs_param; cbn [ToString]; rewrite H. reflexivity.
  - intros celsius Hne.
    exists (Qfloor (celsius * 2 + (1 # 2))). split.
    + apply nearest_half_up_floor.
    + apply celsiusOnOffToFritz_finite.
      destruct (Qeq_bool celsius 253) eqn:E; [|reflexivity].
      apply Qeq_bool_iff in E. contradiction.
Qed.

Lemma celsiusOnOffToFritz_conversion_witness :
  toLowerCase "OFF" = "off"
  /\ parseArgs_param (VStr "OFF") = Ok (lit 253)
  /\ parseArgs shipped [("switchcmd", VStr "sethkrtsoll"); ("param", VStr "On")]
     = Ok [("switchcmd", VStr "sethkrtsoll"); ("param", VNum (lit 254))]
  /\ ~ (39 # 2 == 253)
  /\ celsiusOnOffToFritz (VNum (Fin (39 # 2))) = Ok (lit 39).
Proof.
  destruct celsiusOnOffToFritz_conversion as [Hoff _].
  assert (Hne : ~ (39 # 2 == 253)) by discriminate.
  split; [reflexivity|]. split; [apply Hoff; left; reflexivity|].
  split; [reflexivity|]. split; [exact Hne|].
  reflexivity.
Defined.

(* ------------------------------------------------------------------ *)
(** ** Round trip *)

Lemma grid_In (k : Z) : (16 <= k <= 56)%Z -> In k grid.
Proof.
  intros Hk. unfold grid.
  replace k with (Z.of_nat (Z.to_nat k)) by lia.
  apply in_map, in_seq. lia.
Qed.

Lemma round_trip_grid : forallb round_trip_at grid = true.
Proof. vm_compute. reflexivity. Qed.

Lemma Qfloor_half (k : Z) : Qfloor (inject_Z k + (1 # 2)) = k.
Proof.
  unfold Qfloor, inject_Z, Qplus. cbn [Qnum Qden].
  replace (k * 2 + 1 * 1)%Z with (1 + k * 2)%Z by lia.
  change (Z.pos (1 * 2)) with 2%Z.
  rewrite Z.div_add by lia. reflexivity.
Qed.

(** C5, as stated, fails: 36 lies in [8, 36] on the 0.5 grid, is clamped to
    254 and comes back as "ON". *)
Lemma round_trip_fails_at_36 :
  (8 <= 36 <= 36)%Q
  /\ 36 == 72 # 2
  /\ celsiusOnOffToFritz (VNum (Fin 36)) = Ok (lit 254)
  /\ fritzToCelsiusOnOff (VNum (lit 254)) = VStr "ON"
  /\ loose_eq (VStr "ON") (VNum (Fin 36)) = false.
Proof.
  repeat split; try reflexivity; discriminate.
Qed.

(** C5, amended.  For every Celsius value c in [8, 28] that is a multiple of
    0.5, [celsiusOnOffToFritz] returns a device value d and
    [fritzToCelsiusOnOff] of d equals c. *)
Theorem codec_round_trip (c : Q) :
  (8 <= c <= 28)%Q ->
  (exists k : Z, c == k # 2) ->
  exists d : Num,
    celsiusOnOffToFritz (VNum (Fin c)) = Ok d
    /\ loose_eq (fritzToCelsiusOnOff (VNum d)) (VNum (Fin c)) = true.
Proof.
  intros [Hlo Hhi] [k Hk].
  assert (Hrange : (16 <= k <= 56)%Z).
  { rewrite Hk in Hlo, Hhi. unfold Qle in Hlo, Hhi. cbn in Hlo, Hhi. lia. }
  assert (H253 : Qeq_bool c 253 = false).
  { destruct (Qeq_bool c 253) eqn:E; [|reflexivity].
    apply Qeq_bool_iff in E. rewrite E in Hhi.
    unfold Qle in Hhi. cbn in Hhi. lia. }
  assert (Hfloor : Qfloor (c * 2 + (1 # 2)) = k).
  { rewrite <- (Qfloor_half k). apply Qfloor_comp.
    rewrite Hk, (Qmake_Qdiv k 2). change (inject_Z (Z.pos 2)) with 2%Q. field. }
  exists (clamp_spec (device_formula (k # 2))). split.
  - now rewrite (celsiusOnOffToFritz_finite c H253), Hfloor.
  - pose proof round_trip_grid as Hgrid.
    rewrite forallb_forall in Hgrid.
    specialize (Hgrid k (grid_In k Hrange)). unfold round_trip_at in Hgrid.
    destruct (fritzToCelsiusOnOff _) as [[| | | r] | s]; try discriminate.
    cbn [loose_eq JS.eqb]. apply Qeq_bool_iff in Hgrid. apply Qeq_bool_iff.
    now rewrite Hgrid, Hk.
Qed.

Lemma codec_round_trip_witness :
  (8 <= 39 # 2 <= 28)%Q
  /\ (exists k : Z, 39 # 2 == k # 2)
  /\ exists d : Num,
       celsiusOnOffToFritz (VNum (Fin (39 # 2))) = Ok d
       /\ loose_eq (fritzToCelsiusOnOff (VNum d)) (VNum (Fin (39 # 2))) = true.
Proof.
  assert (Hrange : (8 <= 39 # 2 <= 28)%Q) by (split; discriminate).
  assert (Hgrid : exists k : Z, 39 # 2 == k # 2) by (exists 39%Z; reflexivity).
  split; [exact Hrange|]. split; [exact Hgrid|].
  exact (codec_round_trip (39 # 2) Hrange Hgrid).
Defined.

(* ================================================================== *)
(** * Further facts: temperature codec *)
(* ================================================================== *)

Lemma Qred_inject_Z (k : Z) : Qred (inject_Z k) = inject_Z k.
Proof.
  unfold Qred, inject_Z.
  pose proof (Z.ggcd_gcd k 1) as Hg.
  pose proof (Z.ggcd_correct_divisors k 1) as Hd.
  destruct (Z.ggcd k 1) as [g [a b]]. cbn [fst snd] in *.
  rewrite Z.gcd_1_r in Hg. subst g. destruct Hd as [Ha Hb].
  rewrite Z.mul_1_l in Ha, Hb. subst a b. reflexivity.
Qed.

Lemma Qltb_inject_Z (a b : Z) : JS.Qltb (inject_Z a) (inject_Z b) = (a <? b)%Z.
Proof.
  unfold JS.Qltb, Qcompare, inject_Z, Z.ltb. cbn [Qnum Qden].
  now rewrite !Z.mul_1_r.
Qed.

Lemma Qeq_bool_inject_Z (a b : Z) : Qeq_bool (inject_Z a) (inject_Z b) = (a =? b)%Z.
Proof.
  unfold Qeq_bool, inject_Z. cbn [Qnum Qden]. now rewrite !Z.mul_1_r.
Qed.

Lemma device_formula_half (k : Z) : device_formula (k # 2) == inject_Z k.
Proof.
  unfold device_formula. rewrite (Qmake_Qdiv k 2).
  change (inject_Z (Z.pos 2)) with 2%Q. field.
Qed.

Lemma clamp_spec_half (k : Z) :
  clamp_spec (device_formula (k # 2)) = lit (clamp_Z k).
Proof.
  pose proof (device_formula_half k) as HD.
  set (D := device_formula (k # 2)) in *.
  unfold clamp_spec, clamp_Z.
  rewrite (Qltb_comp D (inject_Z k) 16 (inject_Z 16) HD (Qeq_refl _)).
  rewrite (Qltb_comp 56 (inject_Z 56) D (inject_Z k) (Qeq_refl _) HD).
  rewrite (Qeqb_comp D (inject_Z k) HD 253 (inject_Z 253) (Qeq_refl _)).
  rewrite (Qeqb_comp D (inject_Z k) HD 254 (inject_Z 254) (Qeq_refl _)).
  rewrite !Qltb_inject_Z, !Qeq_bool_inject_Z.
  destruct (k <? 16)%Z; [reflexivity|].
  destruct ((56 <? k) && negb (k =? 253) && negb (k =? 254))%Z; [reflexivity|].
  unfold JS.fin, lit, JS.of_Z.
  now rewrite (Qred_complete D (inject_Z k) HD), Qred_inject_Z.
Qed.


Lemma floor_below (x : Q) (n : Z) : x < inject_Z n -> (Qfloor x < n)%Z.
Proof.
  intros Hx. pose proof (Qfloor_le x) as Hle.
  assert (H : inject_Z (Qfloor x) < inject_Z n) by (eapply Qle_lt_trans; eauto).
  now rewrite <- Zlt_Qlt in H.
Qed.

Lemma floor_above (x : Q) (n : Z) : inject_Z n <= x -> (n <= Qfloor x)%Z.
Proof.
  intros Hx. rewrite <- (Qfloor_Z n). now apply Qfloor_resp_le.
Qed.

(** The device values of the half-degree grid come back as their halves. *)
Lemma fritzToCelsiusOnOff_grid (k : Z) :
  (16 <= k <= 56)%Z ->
  exists r : Q, fritzToCelsiusOnOff (VNum (lit k)) = VNum (Fin r) /\ r == k # 2.
Proof.
  intros Hk. apply grid_In in Hk. unfold grid in Hk. cbn in Hk.
  repeat (destruct Hk as [<- | Hk];
          [eexists; split; [vm_compute; reflexivity | reflexivity]|]).
  contradiction.
Qed.

(** X1.  Every valid device value survives the way to the human format and
    back: a value in 16..56 comes back through its Celsius number, 253 and
    254 through the texts "OFF" and "ON". *)
Theorem device_round_trip (d : Z) :
  device_value d = true ->
  celsiusOnOffToFritz (fritzToCelsiusOnOff (VNum (lit d))) = Ok (lit d).
Proof.
  unfold device_value. intros Hd.
  apply orb_true_iff in Hd as [Hd | Hd];
    [apply orb_true_iff in Hd as [Hd | Hd]|].
  - apply andb_true_iff in Hd as [Hlo Hhi]. apply Z.leb_le in Hlo, Hhi.
    assert (Hk : In d grid) by (apply grid_In; lia).
    unfold grid in Hk. cbn in Hk.
    repeat (destruct Hk as [<- | Hk]; [vm_compute; reflexivity|]).
    contradiction.
  - apply Z.eqb_eq in Hd. subst d. reflexivity.
  - apply Z.eqb_eq in Hd. subst d. reflexivity.
Qed.

Lemma device_round_trip_witness :
  device_value 253 = true
  /\ fritzToCelsiusOnOff (VNum (lit 253)) = VStr "OFF"
  /\ celsiusOnOffToFritz (fritzToCelsiusOnOff (VNum (lit 253))) = Ok (lit 253).
Proof.
  split; [reflexivity|]. split; [reflexivity|].
  apply (device_round_trip 253). reflexivity.
Defined.

(** X2.  A Celsius value from 7.75 up to, but not including, 28.25 is
    snapped to the half-degree grid: the device value is the integer k in
    16..56 with k/2 nearest to it (a tie upwards), and the way back gives
    k/2, at most a quarter of a degree off. *)
Theorem celsius_snaps_to_grid (c : Q) :
  31 # 4 <= c -> c < 113 # 4 ->
  exists (k : Z) (r : Q),
    (16 <= k <= 56)%Z
    /\ nearest_half_up c k
    /\ celsiusOnOffToFritz (VNum (Fin c)) = Ok (lit k)
    /\ fritzToCelsiusOnOff (VNum (lit k)) = VNum (Fin r)
    /\ r == k # 2
    /\ c - (1 # 4) < r <= c + (1 # 4).
Proof.
  intros Hlo Hhi.
  set (k := Qfloor (c * 2 + (1 # 2))).
  assert (Hk : (16 <= k <= 56)%Z).
  { split.
    - apply floor_above. change (inject_Z 16) with 16%Q. lra.
    - assert (k < 57)%Z; [|lia].
      apply floor_below. change (inject_Z 57) with 57%Q. lra. }
  assert (H253 : Qeq_bool c 253 = false).
  { destruct (Qeq_bool c 253) eqn:E; [|reflexivity].
    apply Qeq_bool_iff in E. rewrite E in Hhi. discriminate Hhi. }
  destruct (fritzToCelsiusOnOff_grid k Hk) as [r [Hr Hrk]].
  pose proof (nearest_half_up_floor c) as Hnear. fold k in Hnear.
  exists k, r.
  split; [exact Hk|]. split; [exact Hnear|]. split; [|split; [exact Hr|]].
  - rewrite (celsiusOnOffToFritz_finite c H253). fold k.
    rewrite clamp_spec_half. unfold clamp_Z.
    replace (k <? 16)%Z with false by (symmetry; apply Z.ltb_ge; lia).
    replace (56 <? k)%Z with false by (symmetry; apply Z.ltb_ge; lia).
    reflexivity.
  - split; [exact Hrk|]. destruct Hnear as [Hdown Hup]. split.
    + rewrite Hrk.
      rewrite (Qmake_Qdiv (k + 1) 2) in Hup. rewrite (Qmake_Qdiv k 2).
      rewrite inject_Z_plus in Hup. change (inject_Z 1) with 1%Q in Hup.
      change (inject_Z (Z.pos 2)) with 2%Q in *.
      unfold Qdiv in *. change (/ 2)%Q with (1 # 2)%Q in *. lra.
    + now rewrite Hrk.
Qed.

Lemma celsius_snaps_to_grid_witness :
  31 # 4 <= 71 # 5 /\ 71 # 5 < 113 # 4
  /\ celsiusOnOffToFritz (VNum (Fin (71 # 5))) = Ok (lit 28)
  /\ exists (k : Z) (r : Q),
       (16 <= k <= 56)%Z
       /\ nearest_half_up (71 # 5) k
       /\ celsiusOnOffToFritz (VNum (Fin (71 # 5))) = Ok (lit k)
       /\ fritzToCelsiusOnOff (VNum (lit k)) = VNum (Fin r)
       /\ r == k # 2
       /\ (71 # 5) - (1 # 4) < r <= (71 # 5) + (1 # 4).
Proof.
  assert (Hlo : 31 # 4 <= 71 # 5) by discriminate.
  assert (Hhi : 71 # 5 < 113 # 4) by reflexivity.
  split; [exact Hlo|]. split; [exact Hhi|]. split; [reflexivity|].
  exact (celsius_snaps_to_grid (71 # 5) Hlo Hhi).
Defined.

(** X3.  Outside that band the conversion clamps, with two exceptions:
    below 7.75 gives 253 (OFF); from 28.25 on gives 254 (ON), except that
    the inputs from 126.25 up to 126.75, whose device value would be 253,
    give 253 (OFF), and that the input 253 itself, which is taken for the
    OFF code and not converted, is returned as it is. *)
Theorem celsius_out_of_band (c : Q) :
  (c < 31 # 4 -> celsiusOnOffToFritz (VNum (Fin c)) = Ok (lit 253))
  /\ (113 # 4 <= c -> ~ (505 # 4 <= c < 507 # 4) -> ~ c == 253 ->
      celsiusOnOffToFritz (VNum (Fin c)) = Ok (lit 254))
  /\ (505 # 4 <= c < 507 # 4 ->
      celsiusOnOffToFritz (VNum (Fin c)) = Ok (lit 253))
  /\ (c == 253 ->
      celsiusOnOffToFritz (VNum (Fin c)) = Ok (Fin c)
      /\ celsiusOnOffToFritz (VNum (lit 253)) = Ok (lit 253)).
Proof.
  set (k := Qfloor (c * 2 + (1 # 2))).
  assert (Hfin : Qeq_bool c 253 = false ->
                 celsiusOnOffToFritz (VNum (Fin c)) = Ok (lit (clamp_Z k))).
  { intros H. rewrite (celsiusOnOffToFritz_finite c H). fold k.
    now rewrite clamp_spec_half. }
  assert (Hne : forall P : Prop, (c == 253 -> P) -> ~ P -> Qeq_bool c 253 = false).
  { intros P HP HnP. destruct (Qeq_bool c 253) eqn:E; [|reflexivity].
    apply Qeq_bool_iff in E. elim HnP. auto. }
  split; [|split; [|split]]; cycle 3.
  { intros H253. split; [|reflexivity].
    rewrite celsiusOnOffToFritz_number.
    assert (E253 : (Fin c =? lit 253)%num = true)
      by (apply Qeq_bool_iff; exact H253).
    assert (E16 : (Fin c <? lit 16)%num = false).
    { cbn [JS.lt lit JS.of_Z]. unfold JS.Qltb.
      rewrite H253.
      reflexivity. }
    rewrite E253. cbn [negb andb].
    unfold clamp_code. rewrite E253, E16. cbn [negb].
    now destruct (Fin c >? lit 56)%num. }
  - intros Hc. rewrite Hfin.
    + assert (k < 16)%Z by (apply floor_below; change (inject_Z 16) with 16%Q; lra).
      unfold clamp_Z. now replace (k <? 16)%Z with true by (symmetry; apply Z.ltb_lt; lia).
    + apply (Hne (253 < 31 # 4)); [intros E; now rewrite <- E | discriminate].
  - intros Hc Hhole H253. rewrite Hfin.
    + assert (57 <= k)%Z by (apply floor_above; change (inject_Z 57) with 57%Q; lra).
      assert (k <> 253%Z).
      { intros Hk. apply Hhole.
        pose proof (Qfloor_le (c * 2 + (1 # 2))) as Hle.
        pose proof (Qlt_floor (c * 2 + (1 # 2))) as Hlt.
        fold k in Hle, Hlt. rewrite Hk in Hle, Hlt.
        change (inject_Z 253) with 253%Q in Hle.
        change (inject_Z (253 + 1)) with 254%Q in Hlt. split; lra. }
      unfold clamp_Z.
      replace (k <? 16)%Z with false by (symmetry; apply Z.ltb_ge; lia).
      replace (56 <? k)%Z with true by (symmetry; apply Z.ltb_lt; lia).
      replace (k =? 253)%Z with false by (symmetry; apply Z.eqb_neq; lia).
      cbn [andb negb].
      destruct (k =? 254)%Z eqn:E; [apply Z.eqb_eq in E; now rewrite E | reflexivity].
    + apply (Hne False); [exact H253 | tauto].
  - intros [Hlo Hhi]. rewrite Hfin.
    + assert (k = 253)%Z.
      { assert (253 <= k)%Z
          by (apply floor_above; change (inject_Z 253) with 253%Q; lra).
        assert (k < 254)%Z
          by (apply floor_below; change (inject_Z 254) with 254%Q; lra).
        lia. }
      now replace k with 253%Z.
    + apply (Hne (253 < 507 # 4)); [intros E; now rewrite <- E | discriminate].
Qed.

Lemma celsius_out_of_band_witness :
  7 < 31 # 4
  /\ celsiusOnOffToFritz (VNum (Fin 7)) = Ok (lit 253)
  /\ (505 # 4 <= 253 # 2 < 507 # 4)
  /\ celsiusOnOffToFritz (VNum (Fin (253 # 2))) = Ok (lit 253)
  /\ 506 # 2 == 253
  /\ celsiusOnOffToFritz (VNum (Fin (506 # 2))) = Ok (Fin (506 # 2)).
Proof.
  assert (H7 : 7 < 31 # 4) by reflexivity.
  assert (Hhole : 505 # 4 <= 253 # 2 < 507 # 4) by (split; [discriminate | reflexivity]).
  assert (H253 : 506 # 2 == 253) by reflexivity.
  split; [exact H7|]. split; [|split; [exact Hhole|split; [|split; [exact H253|]]]].
  - exact (proj1 (celsius_out_of_band 7) H7).
  - exact (proj1 (proj2 (proj2 (celsius_out_of_band (253 # 2)))) Hhole).
  - exact (proj1 (proj2 (proj2 (proj2 (celsius_out_of_band (506 # 2)))) H253)).
Defined.

(* ------------------------------------------------------------------ *)
(** ** What [parseArgs] hands on *)







Lemma set_keys (key : string) (v : Value) (o : Arguments) :
  get key o <> None -> map fst (set key v o) = map fst o.
Proof.
  induction o as [| [k w] o IH]; cbn [get set map fst]; [congruence|].
  destruct (String.eqb_spec k key) as [-> | Hne]; [reflexivity|].
  intros H. cbn [map fst]. now rewrite (IH H).
Qed.

Lemma get_set_other (key key' : string) (v : Value) (o : Arguments) :
  key' <> key -> get key' (set key v o) = get key' o.
Proof.
  intros Hne. induction o as [| [k w] o IH]; cbn [get set].
  - destruct (String.eqb_spec key key'); [congruence | reflexivity].
  - destruct (String.eqb_spec k key) as [-> | Hk]; cbn [get].
    + destruct (String.eqb_spec key key'); [congruence | reflexivity].
    + now rewrite IH.
Qed.

(** X5.  Whatever [parseArgs] returns has the keys of its input, in the
    same order, and the same value under every key other than [param]. *)
Theorem parseArgs_keeps_other_arguments
    (cfg : Settings) (arguments result : Arguments) :
  parseArgs cfg arguments = Ok result ->
  map fst result = map fst arguments
  /\ forall key : string, key <> "param" -> get key result = get key arguments.
Proof.
  unfold parseArgs.
  destruct (_ && USE_CELSIUS_ON_OFF cfg); [|now intros [= <-]].
  destruct (get "param" arguments) as [p|] eqn:Hp; [|discriminate].
  destruct (parseArgs_param p) as [e | n]; [discriminate|].
  intros [= <-]. split.
  - apply set_keys. congruence.
  - intros key Hkey. now apply get_set_other.
Qed.

Lemma parseArgs_keeps_other_arguments_witness :
  let arguments := [("ain", VStr "012340000123");
                    ("switchcmd", VStr "sethkrtsoll");
                    ("param", VStr "19.5")] in
  let result := [("ain", VStr "012340000123");
                 ("switchcmd", VStr "sethkrtsoll");
                 ("param", VNum (lit 39))] in
  parseArgs shipped arguments = Ok result
  /\ map fst result = map fst arguments
  /\ get "ain" result = get "ain" arguments.
Proof.
  intros arguments result.
  assert (H : parseArgs shipped arguments = Ok result) by reflexivity.
  destruct (parseArgs_keeps_other_arguments shipped arguments result H)
    as [Hkeys Hget].
  split; [exact H|]. split; [exact Hkeys|].
  apply Hget. discriminate.
Defined.

(* ================================================================== *)
(** * Further facts: the handshake *)
(* ================================================================== *)

Lemma requests_app (t u : list Event) :
  requests (t ++ u) = (requests t ++ requests u)%list.
Proof. apply flat_map_app. Qed.

#[local] Hint Rewrite requests_app : run.

Lemma match_Challenge {A : Type} (ce : option string) (a b : A) :
  match ce with Some "Challenge" => a | _ => b end
  = if match ce with Some s => String.eqb s "Challenge" | None => false end
    then a else b.
Proof.
  destruct ce as [s|]; [|reflexivity].
  destruct (String.eqb_spec s "Challenge") as [-> | Hne]; [reflexivity|].
  repeat (match goal with
          | |- context [match ?x with _ => _ end] =>
              is_var x; destruct x; try reflexivity
          end); congruence.
Qed.

Lemma match_BlockTime {A : Type} (ce : option string) (a b : A) :
  match ce with Some "BlockTime" => a | _ => b end
  = if match ce with Some s => String.eqb s "BlockTime" | None => false end
    then a else b.
Proof.
  destruct ce as [s|]; [|reflexivity].
  destruct (String.eqb_spec s "BlockTime") as [-> | Hne]; [reflexivity|].
  repeat (match goal with
          | |- context [match ?x with _ => _ end] =>
              is_var x; destruct x; try reflexivity
          end); congruence.
Qed.

(** One callback of [getLoginState], with the literals as tests. *)
Lemma login_handlers_found (ce ch bt : option string) (value : string) :
  login_handlers (ce, ch, bt) (foundCharacters value)
  = if match ce with Some s => String.eqb s "Challenge" | None => false end
    then (Some EmptyString, Some value, bt)
    else if match ce with Some s => String.eqb s "BlockTime" | None => false end
         then (Some EmptyString, ch, Some value)
         else (ce, ch, bt).
Proof.
  cbn [login_handlers].
  rewrite (match_Challenge ce (Some EmptyString, Some value) (ce, ch)).
  destruct ce as [s|]; [|reflexivity].
  destruct (String.eqb s "Challenge"); [reflexivity|].
  now rewrite (match_BlockTime (Some s)).
Qed.

(** Without a [Challenge] element the challenge stays [null]. *)
Lemma login_handlers_no_challenge (evs : list XmlEvent) :
  ~ In (didStartElement "Challenge") evs ->
  forall ce bt, ce <> Some "Challenge" ->
  snd (fst (fold_left login_handlers evs (ce, None, bt))) = None.
Proof.
  induction evs as [| ev evs IH]; intros Hno ce bt Hce; [reflexivity|].
  cbn [fold_left].
  assert (Hno' : ~ In (didStartElement "Challenge") evs)
    by (intros H; apply Hno; now right).
  destruct ev as [name | name | value].
  - cbn [login_handlers].
    destruct (String.eqb_spec name "Challenge") as [-> | Hname].
    + exfalso. apply Hno. now left.
    + cbn [orb]. destruct (String.eqb_spec name "BlockTime") as [-> | _].
      * apply IH; [exact Hno' | discriminate].
      * now apply IH.
  - now apply IH.
  - rewrite login_handlers_found.
    assert (Hc : match ce with Some s => String.eqb s "Challenge" | None => false end
                 = false).
    { destruct ce as [s|]; [|reflexivity].
      destruct (String.eqb_spec s "Challenge"); congruence. }
    rewrite Hc.
    destruct (match ce with Some s => String.eqb s "BlockTime" | None => false end).
    + apply IH; [exact Hno' | discriminate].
    + now apply IH.
Qed.

(** Without a [BlockTime] element the lock-out time stays [null]. *)
Lemma login_handlers_no_blockTime (evs : list XmlEvent) :
  ~ In (didStartElement "BlockTime") evs ->
  forall ce ch, ce <> Some "BlockTime" ->
  snd (fold_left login_handlers evs (ce, ch, None)) = None.
Proof.
  induction evs as [| ev evs IH]; intros Hno ce ch Hce; [reflexivity|].
  cbn [fold_left].
  assert (Hno' : ~ In (didStartElement "BlockTime") evs)
    by (intros H; apply Hno; now right).
  destruct ev as [name | name | value].
  - cbn [login_handlers].
    destruct (String.eqb_spec name "BlockTime") as [-> | Hname].
    + exfalso. apply Hno. now left.
    + rewrite orb_false_r.
      destruct (String.eqb_spec name "Challenge") as [-> | _].
      * apply IH; [exact Hno' | discriminate].
      * now apply IH.
  - now apply IH.
  - rewrite login_handlers_found.
    assert (Hb : match ce with Some s => String.eqb s "BlockTime" | None => false end
                 = false).
    { destruct ce as [s|]; [|reflexivity].
      destruct (String.eqb_spec s "BlockTime"); congruence. }
    rewrite Hb.
    destruct (match ce with Some s => String.eqb s "Challenge" | None => false end).
    + apply IH; [exact Hno' | discriminate].
    + now apply IH.
Qed.

Section HandshakeRequests.

Context {crypto : Crypto}.
Variable cfg : Settings.
Variable box : Box.

Lemma getLoginState_outcome :
  outcome (getLoginState box)
  = match loadString box login_request with
    | inl e => Throw e
    | inr response =>
        match fold_left login_handlers (XMLParser_parse box response)
                (None, None, None) with
        | (_, Some c, bt) => Ok (login_state c bt)
        | (_, None, _) => Throw (TypeError (not_an_object "null"))
        end
    end.
Proof.
  unfold getLoginState, load. run.
  destruct (loadString box login_request) as [e | response]; cbn; [reflexivity|].
  destruct (fold_left _ _ _) as [[? [c|]] bt]; reflexivity.
Qed.

Lemma getLoginState_requests :
  requests (trace (getLoginState box)) = [login_request].
Proof.
  unfold getLoginState, load. run.
  destruct (loadString box login_request) as [e | response]; cbn; [reflexivity|].
  destruct (fold_left _ _ _) as [[? [c|]] ?]; reflexivity.
Qed.

Lemma solve_requests (st : LoginState) (pass : string) :
  requests (trace (solve st pass)) = [].
Proof. unfold solve. destruct (isPbkdf2 st); run; reflexivity. Qed.

Lemma wait_requests (st : LoginState) : requests (trace (wait cfg st)) = [].
Proof.
  unfold wait, showNotification.
  destruct (blockTime_number st >? lit 0)%num; [|reflexivity].
  destruct (SHOW_NOTIFICATIONS cfg); reflexivity.
Qed.

Lemma sendResponse_requests (user cr : string) :
  requests (trace (sendResponse box user cr)) = [submit_request user cr].
Proof.
  unfold sendResponse, load. run.
  destruct (loadString box _) as [e | response]; reflexivity.
Qed.

(** X6.  A handshake makes one GET and, once the challenge is fetched and
    solved, one POST, in that order; it makes no further request, whether
    the login fails or not. *)
Theorem create_requests (user pass : string) :
  requests (trace (create cfg box user pass))
  = match outcome (getLoginState box) with
    | inl _ => [login_request]
    | inr st =>
        match outcome (solve st pass) with
        | inl _ => [login_request]
        | inr cr => [login_request; submit_request user cr]
        end
    end.
Proof.
  unfold create. run. rewrite getLoginState_requests.
  destruct (outcome (getLoginState box)) as [e | st]; [reflexivity|]. run.
  rewrite solve_requests.
  destruct (outcome (solve st pass)) as [e | cr]; [reflexivity|]. run.
  rewrite wait_requests, wait_outcome. run. rewrite sendResponse_requests.
  destruct (outcome (sendResponse box user cr)) as [e | [s|]]; try reflexivity.
  destruct (String.eqb s REJECTED_SID); reflexivity.
Qed.

(** X7.  When the login-info response has no [Challenge] element, the
    handshake raises "Failed to login! " with the engine's message for the
    [null] challenge, and the GET is the only request made. *)
Theorem create_without_challenge (user pass response : string) :
  loadString box login_request = Ok response ->
  ~ In (didStartElement "Challenge") (XMLParser_parse box response) ->
  outcome (create cfg box user pass)
  = Throw (Error ("Failed to login! " ++ not_an_object "null"))
  /\ requests (trace (create cfg box user pass)) = [login_request].
Proof.
  intros Hload Hno.
  assert (Hst : outcome (getLoginState box)
                = Throw (TypeError (not_an_object "null"))).
  { rewrite getLoginState_outcome, Hload. cbv beta iota delta [Ok].
    pose proof (login_handlers_no_challenge _ Hno None None) as H.
    destruct (fold_left _ _ _) as [[ce ch] bt]. cbn [fst snd] in H.
    rewrite H by discriminate. reflexivity. }
  split.
  - now rewrite create_outcome, Hst.
  - now rewrite create_requests, Hst.
Qed.

(** X8.  A handshake returns the session id [s] exactly when the challenge
    was fetched and solved, the POST was answered, the SID text read from
    the answer is [s], and [s] is not the all-zero SID. *)
Theorem create_returns_sid (user pass s : string) :
  outcome (create cfg box user pass) = Ok (Some s)
  <-> exists (st : LoginState) (cr response : string),
        outcome (getLoginState box) = Ok st
        /\ outcome (solve st pass) = Ok cr
        /\ loadString box (submit_request user cr) = Ok response
        /\ parsed_sid box response = Some s
        /\ s <> REJECTED_SID.
Proof.
  rewrite create_outcome. split.
  - destruct (outcome (getLoginState box)) as [e | st]; [discriminate|].
    destruct (outcome (solve st pass)) as [e | cr] eqn:Hcr; [discriminate|].
    rewrite sendResponse_outcome.
    destruct (loadString box (submit_request user cr)) as [e | response] eqn:Hload;
      [discriminate|].
    cbv beta iota delta [Ok].
    destruct (parsed_sid box response) as [s'|] eqn:Hsid; [|discriminate].
    destruct (String.eqb_spec s' REJECTED_SID) as [-> | Hne]; [discriminate|].
    intros [= ->]. exists st, cr, response. repeat split; assumption.
  - intros [st [cr [response [Hst [Hcr [Hload [Hsid Hne]]]]]]].
    rewrite Hst. cbv beta iota delta [Ok].
    rewrite Hcr. cbv beta iota delta [Ok].
    rewrite sendResponse_outcome, Hload. cbv beta iota delta [Ok].
    rewrite Hsid.
    now destruct (String.eqb_spec s REJECTED_SID).
Qed.

(** X9.  When the login-info response has no [BlockTime] element, the
    handshake arms no timer. *)
Theorem create_without_blockTime (user pass response : string) :
  loadString box login_request = Ok response ->
  ~ In (didStartElement "BlockTime") (XMLParser_parse box response) ->
  forall ms : Num, ~ In (TimerSchedule ms) (trace (create cfg box user pass)).
Proof.
  intros Hload Hno ms Hin.
  assert (Hwait : In Wait (stages (trace (create cfg box user pass)))).
  { unfold stages. apply in_flat_map. exists (TimerSchedule ms).
    split; [exact Hin | now left]. }
  rewrite create_stages in Hwait.
  rewrite getLoginState_outcome, Hload in Hwait.
  cbv beta iota delta [Ok] in Hwait.
  pose proof (login_handlers_no_blockTime _ Hno None None) as Hbt.
  destruct (fold_left _ _ _) as [[ce [c|]] bt]; cbn [snd] in Hbt.
  - rewrite Hbt in Hwait by discriminate.
    destruct (outcome (solve _ pass)); cbn in Hwait; intuition discriminate.
  - cbn in Hwait. intuition discriminate.
Qed.

End HandshakeRequests.

Lemma create_without_challenge_witness :
  let box := Sim.box (Ok "<SessionInfo><BlockTime>0</BlockTime></SessionInfo>")
                     (Ok (Sim.session_info "0123456789abcdef")) in
  loadString box login_request
  = Ok "<SessionInfo><BlockTime>0</BlockTime></SessionInfo>"
  /\ ~ In (didStartElement "Challenge")
         (XMLParser_parse box "<SessionInfo><BlockTime>0</BlockTime></SessionInfo>")
  /\ outcome (create (crypto := Sim.crypto_js) shipped box "user" "pw")
     = Throw (Error "Failed to login! null is not an object")
  /\ requests (trace (create (crypto := Sim.crypto_js) shipped box "user" "pw"))
     = [login_request].
Proof.
  intros box.
  assert (Hload : loadString box login_request
                  = Ok "<SessionInfo><BlockTime>0</BlockTime></SessionInfo>")
    by reflexivity.
  assert (Hno : ~ In (didStartElement "Challenge")
                     (XMLParser_parse box
                        "<SessionInfo><BlockTime>0</BlockTime></SessionInfo>")).
  { cbn. intros H. repeat (destruct H as [H | H]; [discriminate H|]). exact H. }
  split; [exact Hload|]. split; [exact Hno|].
  exact (create_without_challenge (crypto := Sim.crypto_js) shipped box
           "user" "pw" _ Hload Hno).
Defined.

Lemma create_returns_sid_witness :
  let box := Sim.box (Ok (Sim.login_info "2$10000$5A1711$2000$AA00" "0"))
                     (Ok (Sim.session_info "0123456789abcdef")) in
  (exists (st : LoginState) (cr response : string),
      outcome (getLoginState box) = Ok st
      /\ outcome (solve (crypto := Sim.crypto_js) st "pw") = Ok cr
      /\ loadString box (submit_request "user" cr) = Ok response
      /\ parsed_sid box response = Some "0123456789abcdef"
      /\ "0123456789abcdef" <> REJECTED_SID)
  /\ outcome (create (crypto := Sim.crypto_js) shipped box "user" "pw")
     = Ok (Some "0123456789abcdef").
Proof.
  intros box.
  assert (H : exists (st : LoginState) (cr response : string),
             outcome (getLoginState box) = Ok st
             /\ outcome (solve (crypto := Sim.crypto_js) st "pw") = Ok cr
             /\ loadString box (submit_request "user" cr) = Ok response
             /\ parsed_sid box response = Some "0123456789abcdef"
             /\ "0123456789abcdef" <> REJECTED_SID).
  { exists (login_state "2$10000$5A1711$2000$AA00" (Some "0")),
           "AA00$pbkdf2(pbkdf2(pw,hex(5A1711),10000),hex(AA00),2000)",
           (Sim.session_info "0123456789abcdef").
    repeat split; try reflexivity. discriminate. }
  split; [exact H|].
  exact (proj2 (create_returns_sid (crypto := Sim.crypto_js) shipped box
                  "user" "pw" "0123456789abcdef") H).
Defined.

Lemma create_without_blockTime_witness :
  let box := Sim.box (Ok "<SessionInfo><Challenge>2$10000$5A1711$2000$AA00</Challenge></SessionInfo>")
                     (Ok (Sim.session_info "0123456789abcdef")) in
  loadString box login_request
  = Ok "<SessionInfo><Challenge>2$10000$5A1711$2000$AA00</Challenge></SessionInfo>"
  /\ ~ In (didStartElement "BlockTime")
         (XMLParser_parse box
            "<SessionInfo><Challenge>2$10000$5A1711$2000$AA00</Challenge></SessionInfo>")
  /\ forall ms : Num,
       ~ In (TimerSchedule ms)
            (trace (create (crypto := Sim.crypto_js) shipped box "user" "pw")).
Proof.
  intros box.
  assert (Hload : loadString box login_request
                  = Ok "<SessionInfo><Challenge>2$10000$5A1711$2000$AA00</Challenge></SessionInfo>")
    by reflexivity.
  assert (Hno : ~ In (didStartElement "BlockTime")
                     (XMLParser_parse box
                        "<SessionInfo><Challenge>2$10000$5A1711$2000$AA00</Challenge></SessionInfo>")).
  { cbn. intros H. repeat (destruct H as [H | H]; [discriminate H|]). exact H. }
  split; [exact Hload|]. split; [exact Hno|].
  exact (create_without_blockTime (crypto := Sim.crypto_js) shipped box
           "user" "pw" _ Hload Hno).
Defined.

(* ------------------------------------------------------------------ *)
(** ** The body of the login POST *)

Lemma free_of_app (sep : ascii) (a b : string) :
  free_of sep (a ++ b) = free_of sep a && free_of sep b.
Proof.
  induction a as [| c a IH]; [reflexivity|].
  cbn [append free_of]. now rewrite IH, andb_assoc.
Qed.

Lemma encodeURIComponent_cons (c : ascii) (r : string) :
  encodeURIComponent (String c r)
  = encodeURIComponent (String c EmptyString) ++ encodeURIComponent r.
Proof. cbn [encodeURIComponent]. now destruct (unreserved c). Qed.

Lemma encodeURIComponent_char_free (c : ascii) :
  free_of "&" (encodeURIComponent (String c EmptyString)) = true
  /\ free_of "=" (encodeURIComponent (String c EmptyString)) = true.
Proof.
  destruct c as [[] [] [] [] [] [] [] []]; split; reflexivity.
Qed.

(** An encoded component holds no [&] and no [=]. *)
Lemma encodeURIComponent_free (s : string) :
  free_of "&" (encodeURIComponent s) = true
  /\ free_of "=" (encodeURIComponent s) = true.
Proof.
  induction s as [| c r [IHa IHe]]; [split; reflexivity|].
  rewrite encodeURIComponent_cons, !free_of_app, IHa, IHe.
  destruct (encodeURIComponent_char_free c) as [-> ->]. split; reflexivity.
Qed.

(** X10.  The body of the login POST is "username=", the encoded user
    name, "&response=" and the encoded proof; the encoded parts hold neither
    [&] nor [=], so the body splits on [&] into exactly these two
    parameters whatever the user name and the proof contain. *)
Theorem submit_request_body (username challengeResponse : string) :
  let u := encodeURIComponent username in
  let r := encodeURIComponent challengeResponse in
  body (submit_request username challengeResponse)
  = Some ("username=" ++ u ++ "&response=" ++ r)
  /\ free_of "&" u = true /\ free_of "=" u = true
  /\ free_of "&" r = true /\ free_of "=" r = true
  /\ split "&" ("username=" ++ u ++ "&response=" ++ r)
     = ["username=" ++ u; "response=" ++ r].
Proof.
  intros u r.
  destruct (encodeURIComponent_free username) as [Hua Hue].
  destruct (encodeURIComponent_free challengeResponse) as [Hra Hre].
  split; [reflexivity|].
  repeat (split; [assumption|]).
  change ("username=" ++ u ++ "&response=" ++ r)
    with (("username=" ++ u) ++ String "&" ("response=" ++ r)).
  rewrite split_field, split_last; [reflexivity| |].
  - rewrite free_of_app. unfold r. now rewrite Hra.
  - rewrite free_of_app. unfold u. now rewrite Hua.
Qed.

(* ================================================================== *)
(** * Further facts: the lock-out wait *)
(* ================================================================== *)

Lemma span_digits_all (ds : string) :
  all_digits ds = true -> snd (span_digits 10 ds) = EmptyString.
Proof.
  induction ds as [| c r IH]; [reflexivity|].
  cbn [all_digits span_digits]. intros H.
  apply andb_true_iff in H as [Hc Hr].
  rewrite digit_value_10, Hc. specialize (IH Hr).
  destruct (span_digits 10 r) as [l rest]. exact IH.
Qed.

Lemma span_digits_nonempty (c : ascii) (r : string) :
  is_digit c = true -> fst (span_digits 10 (String c r)) <> [].
Proof.
  intros Hc. cbn [span_digits]. rewrite digit_value_10, Hc.
  destruct (span_digits 10 r). discriminate.
Qed.

Lemma radix_literal_numeral (ds : string) :
  all_digits ds = true -> radix_literal ds = None.
Proof.
  destruct ds as [| c0 [| c r]]; [reflexivity | |].
  - intros _. destruct c0 as [[] [] [] [] [] [] [] []]; reflexivity.
  - cbn [all_digits]. intros H.
    apply andb_true_iff in H as [_ H]. apply andb_true_iff in H as [Hc _].
    destruct c0 as [[] [] [] [] [] [] [] []]; try reflexivity.
    cbn [radix_literal].
    now rewrite !(digit_not c _ Hc) by reflexivity.
Qed.

(** [Number(text)] of a decimal numeral is the number it spells. *)
Lemma StringToNumber_numeral (ds : string) :
  ds <> EmptyString -> all_digits ds = true ->
  StringToNumber ds = lit (numeral_value ds).
Proof.
  intros Hne Hds. destruct ds as [| c r]; [congruence|].
  pose proof Hds as Hc. cbn [all_digits] in Hc.
  apply andb_true_iff in Hc as [Hc _].
  unfold StringToNumber. rewrite (skip_ws_digit c r Hc).
  rewrite (radix_literal_numeral _ Hds).
  unfold parse_decimal. rewrite (strip_sign_digit c r Hc).
  assert (Hinf : startsWith (String c r) "Infinity" = false).
  { cbn [startsWith].
    destruct (Ascii.eqb_spec "I" c) as [<- | _]; [discriminate Hc | reflexivity]. }
  rewrite Hinf.
  pose proof (span_digits_all _ Hds) as Hrest.
  pose proof (span_digits_nonempty c r Hc) as Hnil.
  unfold numeral_value.
  destruct (span_digits 10 (String c r)) as [ip s2]. cbn [fst snd] in *.
  subst s2. rewrite app_nil_r.
  destruct ip as [| d ip]; [congruence|].
  cbn [parse_exponent List.length skip_ws].
  unfold JS.fin, lit, JS.of_Z. f_equal.
  rewrite <- (Qred_inject_Z (digits_value 10 (d :: ip))).
  apply Qred_complete. rewrite Z.mul_1_l.
  change (Qpower (10 # 1) (0 - Z.of_nat 0)) with 1%Q. ring.
Qed.

Lemma timers_app (t u : list Event) :
  timers (t ++ u) = (timers t ++ timers u)%list.
Proof. apply flat_map_app. Qed.

#[local] Hint Rewrite timers_app : run.

Section LockoutWait.

Context {crypto : Crypto}.
Variable cfg : Settings.
Variable box : Box.

Lemma wait_timers (st : LoginState) :
  timers (trace (wait cfg st))
  = if (blockTime_number st >? lit 0)%num
    then [(blockTime_number st * lit 1000)%num]
    else [].
Proof.
  unfold wait, showNotification.
  destruct (blockTime_number st >? lit 0)%num; [|reflexivity].
  destruct (SHOW_NOTIFICATIONS cfg); reflexivity.
Qed.

Lemma create_timers (user pass : string) (st : LoginState) (cr : string) :
  outcome (getLoginState box) = Ok st ->
  outcome (solve st pass) = Ok cr ->
  timers (trace (create cfg box user pass)) = timers (trace (wait cfg st)).
Proof.
  intros Hst Hcr. unfold create. run.
  assert (Hg : timers (trace (getLoginState box)) = []).
  { unfold getLoginState, load. run.
    destruct (loadString box login_request) as [e | response]; cbn; [reflexivity|].
    destruct (fold_left _ _ _) as [[? [c|]] ?]; reflexivity. }
  assert (Hs : timers (trace (solve st pass)) = []).
  { unfold solve. destruct (isPbkdf2 st); run; reflexivity. }
  assert (Hp : timers (trace (sendResponse box user cr)) = []).
  { unfold sendResponse, load. run.
    destruct (loadString box _) as [e | response]; reflexivity. }
  rewrite Hg, Hst. cbv beta iota delta [Ok]. run.
  rewrite Hs, Hcr. cbv beta iota delta [Ok]. run.
  rewrite wait_outcome. run. rewrite Hp.
  destruct (outcome (sendResponse box user cr)) as [e | [s|]]; cbn;
    rewrite ?app_nil_r; try reflexivity.
  destruct (String.eqb s REJECTED_SID); cbn; now rewrite !app_nil_r.
Qed.

(** X24.  When the fetched lock-out time is the decimal numeral of N and
    the challenge is solved, the handshake arms one timer of N * 1000
    milliseconds for N > 0, and none for N = 0. *)
Theorem create_lockout_wait
    (user pass : string) (st : LoginState) (cr ds : string) :
  outcome (getLoginState box) = Ok st ->
  outcome (solve st pass) = Ok cr ->
  blockTime st = Some ds ->
  ds <> EmptyString -> all_digits ds = true ->
  timers (trace (create cfg box user pass))
  = if (0 <? numeral_value ds)%Z
    then [lit (numeral_value ds * 1000)]
    else [].
Proof.
  intros Hst Hcr Hbt Hne Hds.
  rewrite (create_timers user pass st cr Hst Hcr), wait_timers.
  unfold blockTime_number. rewrite Hbt, (StringToNumber_numeral ds Hne Hds).
  unfold JS.gt, JS.lt, lit, JS.of_Z. rewrite Qltb_inject_Z.
  destruct (0 <? numeral_value ds)%Z; [|reflexivity].
  cbn [JS.mul]. unfold JS.fin. do 2 f_equal.
  rewrite <- (Qred_inject_Z (numeral_value ds * 1000)).
  apply Qred_complete. now rewrite inject_Z_mult.
Qed.

End LockoutWait.

Lemma create_lockout_wait_witness :
  let box := Sim.box (Ok (Sim.login_info "2$10000$5A1711$2000$AA00" "32"))
                     (Ok (Sim.session_info "0123456789abcdef")) in
  outcome (getLoginState box) = Ok (login_state "2$10000$5A1711$2000$AA00" (Some "32"))
  /\ outcome (solve (crypto := Sim.crypto_js)
                (login_state "2$10000$5A1711$2000$AA00" (Some "32")) "pw")
     = Ok "AA00$pbkdf2(pbkdf2(pw,hex(5A1711),10000),hex(AA00),2000)"
  /\ all_digits "32" = true
  /\ timers (trace (create (crypto := Sim.crypto_js) shipped box "user" "pw"))
     = [lit 32000].
Proof.
  intros box.
  split; [reflexivity|]. split; [reflexivity|]. split; [reflexivity|].
  rewrite (create_lockout_wait (crypto := Sim.crypto_js) shipped box "user" "pw"
             (login_state "2$10000$5A1711$2000$AA00" (Some "32"))
             "AA00$pbkdf2(pbkdf2(pw,hex(5A1711),10000),hex(AA00),2000)" "32"
             eq_refl eq_refl eq_refl); [reflexivity | discriminate | reflexivity].
Defined.

(* ================================================================== *)
(** * Further facts: command dispatch *)
(* ================================================================== *)

Lemma string_app_assoc (a b c : string) : (a ++ b) ++ c = a ++ b ++ c.
Proof. induction a as [| x a IH]; [reflexivity|]. cbn. now rewrite IH. Qed.

Lemma string_app_nil_r (a : string) : a ++ EmptyString = a.
Proof. induction a as [| x a IH]; [reflexivity|]. cbn. now rewrite IH. Qed.

Lemma fold_add_parameter (l : Arguments) (u : string) :
  fold_left add_parameter l u = u ++ query l.
Proof.
  revert u. induction l as [| kv l IH]; intros u; cbn [fold_left query fold_right].
  - now rewrite string_app_nil_r.
  - rewrite IH. unfold add_parameter. fold (parameter_text kv).
    now rewrite string_app_assoc.
Qed.

Lemma query_app (a b : Arguments) :
  query (a ++ b)%list = query a ++ query b.
Proof.
  induction a as [| kv a IH]; [reflexivity|].
  cbn [app query fold_right]. fold (query (a ++ b)%list). fold (query a).
  now rewrite IH, string_app_assoc.
Qed.

Lemma array_index_plain (key : string) :
  index_like key = false -> array_index key = None.
Proof.
  unfold index_like, array_index. destruct key as [| c r]; [reflexivity|].
  now intros ->.
Qed.

(** With no key spelled like an array index, [for ... in] follows the
    insertion order. *)
Lemma for_in_plain (o : Arguments) : plain_keys o = true -> for_in o = o.
Proof.
  unfold plain_keys, for_in. intros H.
  assert (Hall : forall kv, In kv o -> array_index (fst kv) = None).
  { intros kv Hin. rewrite forallb_forall in H. specialize (H kv Hin).
    apply negb_true_iff in H. now apply array_index_plain. }
  clear H.
  assert (Hidx : forall acc,
             fold_left
               (fun acc kv =>
                  match array_index (fst kv) with
                  | Some i => insert_indexed i kv acc
                  | None => acc
                  end) o acc = acc).
  { induction o as [| kv o IH]; intros acc; [reflexivity|].
    cbn [fold_left]. rewrite (Hall kv) by now left.
    apply IH. intros kv' Hin. apply Hall. now right. }
  rewrite Hidx. cbn [map app].
  induction o as [| kv o IH]; [reflexivity|].
  cbn [filter]. rewrite (Hall kv) by now left.
  f_equal. apply IH.
  - intros kv' Hin. apply Hall. now right.
  - intros acc. specialize (Hidx acc). cbn [fold_left] in Hidx.
    now rewrite (Hall kv) in Hidx by now left.
Qed.

(** X11.  [sendCommand] makes exactly one request, a GET.  For arguments
    without index-like keys its URL is the command route, "sid=" and the
    session id ("null" for a [null] id), then "&key=value" for every
    argument in the order given.  It returns the body as it is, and wraps a
    transport error as "Failed to send command! " and the error's text. *)
Theorem sendCommand_request
    (box : Box) (sid : option string) (arguments : Arguments) :
  requests (trace (sendCommand box sid arguments))
  = [command_request sid arguments]
  /\ method (command_request sid arguments) = "GET"
  /\ (plain_keys arguments = true ->
      url (command_request sid arguments)
      = "http://fritz.box/webservices/homeautoswitch.lua?sid="
        ++ sid_text sid ++ query arguments)
  /\ outcome (sendCommand box sid arguments)
     = match loadString box (command_request sid arguments) with
       | inl err =>
           Throw (Error ("Failed to send command! " ++ Exn_toString err))
       | inr response => Ok response
       end.
Proof.
  split; [|split; [reflexivity | split]].
  - unfold sendCommand, load. run.
    destruct (loadString box _); reflexivity.
  - intros Hplain. cbn [url command_request]. unfold command_url.
    now rewrite (for_in_plain _ Hplain), fold_add_parameter.
  - unfold sendCommand, load. run.
    destruct (loadString box _); reflexivity.
Qed.

Lemma sendCommand_request_witness :
  let arguments := [("ain", VStr "012340000123");
                    ("switchcmd", VStr "sethkrtsoll");
                    ("param", VNum (lit 39))] in
  plain_keys arguments = true
  /\ url (command_request (Some "0123456789abcdef") arguments)
     = "http://fritz.box/webservices/homeautoswitch.lua?sid=0123456789abcdef&ain=012340000123&switchcmd=sethkrtsoll&param=39".
Proof.
  intros arguments.
  assert (Hplain : plain_keys arguments = true) by reflexivity.
  split; [exact Hplain|].
  rewrite (proj1 (proj2 (proj2 (sendCommand_request
                                  (Sim.box (Ok EmptyString) (Ok EmptyString))
                                  (Some "0123456789abcdef") arguments)))
             Hplain).
  reflexivity.
Defined.

(** X12.  [sendCommand] escapes nothing: a text value that contains
    "&key2=value2" gives the very URL of two separate arguments. *)
Theorem sendCommand_does_not_escape
    (sid : option string) (before after : Arguments)
    (key value key2 value2 : string) :
  plain_keys (before ++ (key, VStr value) :: (key2, VStr value2) :: after)%list
  = true ->
  command_url sid
    (before ++ (key, VStr (value ++ "&" ++ key2 ++ "=" ++ value2)) :: after)%list
  = command_url sid
      (before ++ (key, VStr value) :: (key2, VStr value2) :: after)%list.
Proof.
  intros Hplain.
  assert (Hplain' : plain_keys
            (before ++ (key, VStr (value ++ "&" ++ key2 ++ "=" ++ value2)) :: after)%list
          = true).
  { unfold plain_keys in *. rewrite forallb_app in *.
    apply andb_true_iff in Hplain as [Hb Hrest]. rewrite Hb.
    cbn [forallb fst andb] in *.
    apply andb_true_iff in Hrest as [Hk Hrest].
    apply andb_true_iff in Hrest as [_ Ha]. now rewrite Hk, Ha. }
  unfold command_url.
  rewrite (for_in_plain _ Hplain), (for_in_plain _ Hplain'), !fold_add_parameter.
  f_equal. rewrite !query_app. f_equal.
  change ((key, VStr value) :: (key2, VStr value2) :: after)
    with ([(key, VStr value); (key2, VStr value2)] ++ after)%list.
  change ((key, VStr (value ++ "&" ++ key2 ++ "=" ++ value2)) :: after)
    with ([(key, VStr (value ++ "&" ++ key2 ++ "=" ++ value2))] ++ after)%list.
  rewrite !query_app. f_equal.
  unfold query, parameter_text. cbn [fold_right fst snd ToString].
  now rewrite !string_app_nil_r, !string_app_assoc.
Qed.

Lemma sendCommand_does_not_escape_witness :
  plain_keys ([] ++ ("param", VStr "19") :: ("ain", VStr "1") :: [])%list = true
  /\ command_url None [("param", VStr "19&ain=1")]
     = command_url None [("param", VStr "19"); ("ain", VStr "1")].
Proof.
  split; [reflexivity|].
  exact (sendCommand_does_not_escape None [] [] "param" "19" "ain" "1" eq_refl).
Defined.

(* ================================================================== *)
(** * Further facts: start arguments *)
(* ================================================================== *)

Lemma delete_absent (key : string) (o : Arguments) :
  has_key key o = false -> delete key o = o.
Proof.
  induction o as [| [k v] o IH]; [reflexivity|].
  cbn [has_key existsb delete filter fst]. intros H.
  apply orb_false_iff in H as [Hk Ho]. rewrite Hk. cbn [negb].
  f_equal. now apply IH.
Qed.

Lemma get_delete_same (key : string) (o : Arguments) :
  get key (delete key o) = None.
Proof.
  induction o as [| [k v] o IH]; [reflexivity|].
  cbn [delete filter fst]. destruct (String.eqb k key) eqn:E; cbn [negb].
  - exact IH.
  - cbn [get]. rewrite E. exact IH.
Qed.

Lemma get_delete_other (key key' : string) (o : Arguments) :
  key' <> key -> get key' (delete key o) = get key' o.
Proof.
  intros Hne. induction o as [| [k v] o IH]; [reflexivity|].
  cbn [delete filter fst get].
  destruct (String.eqb_spec k key) as [-> | Hk]; cbn [negb get].
  - destruct (String.eqb_spec key key'); [congruence | exact IH].
  - destruct (String.eqb k key'); [reflexivity | exact IH].
Qed.

(** X13.  Outside test mode [getInputArgs] takes the shortcut parameter
    when there is one and the query parameters otherwise, and fails exactly
    when there is neither; what it returns is that object without its
    [scriptName] entries, every other key unchanged. *)
Theorem getInputArgs_outside_test_mode (run : RunSettings) (args : ScriptArgs) :
  TEST_ARGS_ENABLED run = false \/ TEST_ARGS run = None ->
  let source :=
    match shortcutParameter args with
    | Some p => p
    | None => queryParameters args
    end in
  (getInputArgs run args
   = Throw (Error "No start arguments were passed to the script")
   <-> shortcutParameter args = None /\ queryParameters args = [])
  /\ forall arguments : Arguments,
       getInputArgs run args = Ok arguments ->
       arguments = delete "scriptName" source
       /\ get "scriptName" arguments = None
       /\ forall key : string,
            key <> "scriptName" -> get key arguments = get key source.
Proof.
  intros Hmode source.
  assert (Hdef : getInputArgs run args
                 = match shortcutParameter args, queryParameters args with
                   | None, [] =>
                       Throw (Error "No start arguments were passed to the script")
                   | _, _ => Ok (delete "scriptName" source)
                   end).
  { unfold getInputArgs, source.
    assert (Hstrip : forall o,
               (if has_key "scriptName" o then delete "scriptName" o else o)
               = delete "scriptName" o).
    { intros o. destruct (has_key "scriptName" o) eqn:E; [reflexivity|].
      symmetry. now apply delete_absent. }
    destruct Hmode as [-> | ->]; [destruct (TEST_ARGS run)|];
      (destruct (shortcutParameter args) as [p|];
       [|destruct (queryParameters args) as [| kv q]; [reflexivity|]];
       cbn -[has_key delete]; now rewrite Hstrip). }
  rewrite Hdef. split.
  - destruct (shortcutParameter args) as [p|]; [split; [discriminate | intros [H _]; discriminate]|].
    destruct (queryParameters args) as [| kv q];
      [tauto | split; [discriminate | intros [_ H]; discriminate]].
  - intros arguments Hok.
    assert (Harg : arguments = delete "scriptName" source).
    { destruct (shortcutParameter args) as [p|];
        [|destruct (queryParameters args) as [| kv q]; [discriminate|]];
        now injection Hok as <-. }
    split; [exact Harg|]. subst arguments. split.
    + apply get_delete_same.
    + intros key Hkey. now apply get_delete_other.
Qed.

Lemma getInputArgs_outside_test_mode_witness :
  let args := {| shortcutParameter := None;
                 queryParameters := [("scriptName", VStr "FritzApi");
                                     ("switchcmd", VStr "gettemperature");
                                     ("ain", VStr "012340000123")] |} in
  (TEST_ARGS_ENABLED shipped_run = false \/ TEST_ARGS shipped_run = None)
  /\ getInputArgs shipped_run args
     = Ok [("switchcmd", VStr "gettemperature"); ("ain", VStr "012340000123")]
  /\ get "scriptName"
       [("switchcmd", VStr "gettemperature"); ("ain", VStr "012340000123")]
     = None.
Proof.
  intros args.
  assert (Hmode : TEST_ARGS_ENABLED shipped_run = false \/ TEST_ARGS shipped_run = None)
    by (left; reflexivity).
  assert (Hok : getInputArgs shipped_run args
                = Ok [("switchcmd", VStr "gettemperature");
                      ("ain", VStr "012340000123")]) by reflexivity.
  split; [exact Hmode|]. split; [exact Hok|].
  exact (proj1 (proj2 (proj2 (getInputArgs_outside_test_mode shipped_run args Hmode)
                         _ Hok))).
Defined.

(* ================================================================== *)
(** * Further facts: LoginManager *)
(* ================================================================== *)

Lemma string_app_inv_head (a b c : string) : a ++ b = a ++ c -> b = c.
Proof.
  induction a as [| x a IH]; cbn; [trivial|]. intros [= H]. now apply IH.
Qed.

Lemma keychain_keys_differ (lm : LoginManager) :
  keychain_key lm "user" <> keychain_key lm "pass".
Proof.
  unfold keychain_key. destruct (this_SCRIPT_ID lm) as [id|]; intros H.
  - apply string_app_inv_head in H. discriminate.
  - discriminate.
Qed.

Section Keychain.

Variable lm : LoginManager.

Lemma getRememberedCredentials_entries (st : Store) :
  getRememberedCredentials lm st
  = match entries st (keychain_key lm "user"),
          entries st (keychain_key lm "pass") with
    | Some u, Some p => Some {| user := u; pass := p |}
    | _, _ => None
    end.
Proof.
  unfold getRememberedCredentials, Keychain_get.
  destruct (entries st (keychain_key lm "user")); [|reflexivity].
  destruct (entries st (keychain_key lm "pass")); reflexivity.
Qed.

Lemma saveCredentials_written (u p : string) (st : Store) :
  denied st (keychain_key lm "user") = false ->
  denied st (keychain_key lm "pass") = false ->
  saveCredentials lm u p st
  = (true,
     {| entries := fun k =>
          if String.eqb k (keychain_key lm "pass") then Some p
          else if String.eqb k (keychain_key lm "user") then Some u
               else entries st k;
        denied := denied st |}).
Proof.
  intros Hu Hp. unfold saveCredentials, Keychain_set.
  rewrite Hu. cbn [denied Ok]. now rewrite Hp.
Qed.

Lemma deleteCredentials_removed (st : Store) :
  denied st (keychain_key lm "user") = false ->
  denied st (keychain_key lm "pass") = false ->
  deleteCredentials lm st
  = (true,
     {| entries := fun k =>
          if String.eqb k (keychain_key lm "pass") then None
          else if String.eqb k (keychain_key lm "user") then None
               else entries st k;
        denied := denied st |}).
Proof.
  intros Hu Hp. unfold deleteCredentials, Keychain_remove.
  rewrite Hu. cbn [denied Ok]. now rewrite Hp.
Qed.

Lemma saved_is_remembered (u p : string) (st : Store) :
  denied st (keychain_key lm "user") = false ->
  denied st (keychain_key lm "pass") = false ->
  getRememberedCredentials lm (snd (saveCredentials lm u p st))
  = Some {| user := u; pass := p |}.
Proof.
  intros Hu Hp. rewrite (saveCredentials_written u p st Hu Hp). cbn [snd].
  rewrite getRememberedCredentials_entries. cbn [entries].
  rewrite !String.eqb_refl.
  now rewrite (proj2 (String.eqb_neq _ _) (keychain_keys_differ lm)).
Qed.

Lemma deleted_is_forgotten (st : Store) :
  denied st (keychain_key lm "user") = false ->
  denied st (keychain_key lm "pass") = false ->
  getRememberedCredentials lm (snd (deleteCredentials lm st)) = None.
Proof.
  intros Hu Hp. rewrite (deleteCredentials_removed st Hu Hp). cbn [snd].
  rewrite getRememberedCredentials_entries. cbn [entries].
  rewrite String.eqb_refl.
  now rewrite (proj2 (String.eqb_neq _ _) (keychain_keys_differ lm)).
Qed.

(** X14.  When the keychain takes both writes, [saveCredentials] returns
    [true], [getRememberedCredentials] then returns the very pair saved,
    and no other key of the keychain has changed. *)
Theorem saveCredentials_round_trip (u p : string) (st : Store) :
  denied st (keychain_key lm "user") = false ->
  denied st (keychain_key lm "pass") = false ->
  fst (saveCredentials lm u p st) = true
  /\ getRememberedCredentials lm (snd (saveCredentials lm u p st))
     = Some {| user := u; pass := p |}
  /\ forall key : string,
       key <> keychain_key lm "user" -> key <> keychain_key lm "pass" ->
       entries (snd (saveCredentials lm u p st)) key = entries st key.
Proof.
  intros Hu Hp. split; [|split].
  - now rewrite (saveCredentials_written u p st Hu Hp).
  - now apply saved_is_remembered.
  - intros key Hku Hkp. rewrite (saveCredentials_written u p st Hu Hp).
    cbn [snd entries]. apply String.eqb_neq in Hku, Hkp. now rewrite Hkp, Hku.
Qed.

(** X15.  When the keychain takes the user name but refuses the password,
    [saveCredentials] returns [false] and yet leaves the new user name in
    place: with a password stored before, [getRememberedCredentials] then
    returns the new user name with the old password. *)
Theorem saveCredentials_half_written (u p old : string) (st : Store) :
  denied st (keychain_key lm "user") = false ->
  denied st (keychain_key lm "pass") = true ->
  entries st (keychain_key lm "pass") = Some old ->
  fst (saveCredentials lm u p st) = false
  /\ getRememberedCredentials lm (snd (saveCredentials lm u p st))
     = Some {| user := u; pass := old |}.
Proof.
  intros Hu Hp Hold.
  assert (Hsave : saveCredentials lm u p st
                  = (false,
                     {| entries := fun k =>
                          if String.eqb k (keychain_key lm "user") then Some u
                          else entries st k;
                        denied := denied st |})).
  { unfold saveCredentials, Keychain_set. rewrite Hu. cbn [denied Ok].
    now rewrite Hp. }
  rewrite Hsave. cbn [fst snd]. split; [reflexivity|].
  rewrite getRememberedCredentials_entries. cbn [entries].
  rewrite String.eqb_refl.
  assert (Hne : String.eqb (keychain_key lm "pass") (keychain_key lm "user") = false).
  { apply String.eqb_neq. intros H. now apply (keychain_keys_differ lm). }
  now rewrite Hne, Hold.
Qed.

(** X16.  When the keychain takes both removals, [deleteCredentials]
    returns [true]; afterwards nothing is remembered, [getCredentials]
    shows the login alert whatever the setting, and no other key of the
    keychain has changed. *)
Theorem deleteCredentials_forgets (ui : UI) (st : Store) :
  denied st (keychain_key lm "user") = false ->
  denied st (keychain_key lm "pass") = false ->
  fst (deleteCredentials lm st) = true
  /\ getRememberedCredentials lm (snd (deleteCredentials lm st)) = None
  /\ getCredentials lm ui (snd (deleteCredentials lm st)) = showLoginAlert ui
  /\ forall key : string,
       key <> keychain_key lm "user" -> key <> keychain_key lm "pass" ->
       entries (snd (deleteCredentials lm st)) key = entries st key.
Proof.
  intros Hu Hp. pose proof (deleted_is_forgotten st Hu Hp) as Hnone.
  split; [|split; [exact Hnone | split]].
  - now rewrite (deleteCredentials_removed st Hu Hp).
  - unfold getCredentials. rewrite Hnone. now rewrite andb_false_r.
  - intros key Hku Hkp. rewrite (deleteCredentials_removed st Hu Hp).
    cbn [snd entries]. apply String.eqb_neq in Hku, Hkp. now rewrite Hkp, Hku.
Qed.


End Keychain.

Lemma saveCredentials_round_trip_witness :
  denied SimHost.empty_keychain (keychain_key SimHost.manager "user") = false
  /\ denied SimHost.empty_keychain (keychain_key SimHost.manager "pass") = false
  /\ getRememberedCredentials SimHost.manager
       (snd (saveCredentials SimHost.manager "anna" "pw" SimHost.empty_keychain))
     = Some {| user := "anna"; pass := "pw" |}.
Proof.
  split; [reflexivity|]. split; [reflexivity|].
  exact (proj1 (proj2 (saveCredentials_round_trip SimHost.manager "anna" "pw"
                         SimHost.empty_keychain eq_refl eq_refl))).
Defined.

Lemma saveCredentials_half_written_witness :
  let st := SimHost.keychain_password_locked "anna" "old" in
  denied st (keychain_key SimHost.manager "user") = false
  /\ denied st (keychain_key SimHost.manager "pass") = true
  /\ entries st (keychain_key SimHost.manager "pass") = Some "old"
  /\ fst (saveCredentials SimHost.manager "bert" "new" st) = false
  /\ getRememberedCredentials SimHost.manager
       (snd (saveCredentials SimHost.manager "bert" "new" st))
     = Some {| user := "bert"; pass := "old" |}.
Proof.
  intros st.
  split; [reflexivity|]. split; [reflexivity|]. split; [reflexivity|].
  exact (saveCredentials_half_written SimHost.manager "bert" "new" "old" st
           eq_refl eq_refl eq_refl).
Defined.

Lemma deleteCredentials_forgets_witness :
  let st := SimHost.keychain_with "anna" "pw" in
  denied st (keychain_key SimHost.manager "user") = false
  /\ denied st (keychain_key SimHost.manager "pass") = false
  /\ getRememberedCredentials SimHost.manager st
     = Some {| user := "anna"; pass := "pw" |}
  /\ getRememberedCredentials SimHost.manager
       (snd (deleteCredentials SimHost.manager st)) = None.
Proof.
  intros st.
  split; [reflexivity|]. split; [reflexivity|]. split; [reflexivity|].
  exact (proj1 (proj2 (deleteCredentials_forgets SimHost.manager
                         SimHost.user_cancels st eq_refl eq_refl))).
Defined.


(* ================================================================== *)
(** * Further facts: a whole run *)
(* ================================================================== *)

Lemma alerts_app (a b : list Step) : alerts (a ++ b) = (alerts a ++ alerts b)%list.
Proof. apply flat_map_app. Qed.

Lemma outputs_app (a b : list Step) :
  outputs (a ++ b) = (outputs a ++ outputs b)%list.
Proof. apply flat_map_app. Qed.

Lemma errors_app (a b : list Step) : errors (a ++ b) = (errors a ++ errors b)%list.
Proof. apply flat_map_app. Qed.

Lemma run_requests_app (a b : list Step) :
  run_requests (a ++ b) = (run_requests a ++ run_requests b)%list.
Proof. apply flat_map_app. Qed.

Lemma alerts_cons (s : Step) (l : list Step) :
  alerts (s :: l) = (step_alerts s ++ alerts l)%list.
Proof. reflexivity. Qed.

Lemma outputs_cons (s : Step) (l : list Step) :
  outputs (s :: l) = (step_outputs s ++ outputs l)%list.
Proof. reflexivity. Qed.

Lemma errors_cons (s : Step) (l : list Step) :
  errors (s :: l) = (step_errors s ++ errors l)%list.
Proof. reflexivity. Qed.

Lemma run_requests_cons (s : Step) (l : list Step) :
  run_requests (s :: l) = (step_requests s ++ run_requests l)%list.
Proof. reflexivity. Qed.

(** Push the four readings of a run through its steps. *)
Ltac read_steps :=
  repeat progress
    (rewrite ?alerts_app, ?outputs_app, ?errors_app, ?run_requests_app,
       ?alerts_cons, ?outputs_cons, ?errors_cons, ?run_requests_cons);
  cbn [step_alerts step_outputs step_errors step_requests app].

Lemma session_steps_quiet {A : Type} (m : M A) :
  alerts (session_steps m) = []
  /\ outputs (session_steps m) = []
  /\ errors (session_steps m) = []
  /\ run_requests (session_steps m) = requests (trace m).
Proof.
  unfold session_steps. induction (trace m) as [| ev t [Ha [Ho [He Hr]]]].
  - repeat split.
  - cbn [map]. unfold alerts, outputs, errors, run_requests, requests in *.
    cbn [flat_map step_alerts step_outputs step_errors step_requests].
    rewrite Ha, Ho, He, Hr. repeat split.
Qed.

Lemma showNotification_requests (cfg : Settings) (text : string) :
  requests (trace (showNotification cfg text)) = [].
Proof. unfold showNotification. destruct (SHOW_NOTIFICATIONS cfg); reflexivity. Qed.

Lemma getCredentials_quiet (lm : LoginManager) (ui : UI) (st : Store) :
  outputs (fst (getCredentials lm ui st)) = []
  /\ errors (fst (getCredentials lm ui st)) = []
  /\ run_requests (fst (getCredentials lm ui st)) = [].
Proof.
  unfold getCredentials.
  destruct (_ && _); repeat split.
Qed.

Lemma updateStoredCredentials_quiet
    (lm : LoginManager) (ui : UI) (u p : string) (st : Store) :
  outputs (fst (updateStoredCredentials lm ui u p st)) = []
  /\ errors (fst (updateStoredCredentials lm ui u p st)) = []
  /\ run_requests (fst (updateStoredCredentials lm ui u p st)) = [].
Proof.
  unfold updateStoredCredentials, showRememberAlert.
  destruct (this_REMEMBER_CREDENTIALS lm); [|repeat split].
  destruct (getRememberedCredentials lm st); [repeat split|].
  destruct (remember_response ui =? -1)%Z; repeat split.
Qed.

Lemma new_script_login_manager (run : RunSettings) :
  new_LoginManager run (Some SCRIPT_ID) (Some (REMEMBER_CREDENTIALS run))
  = Ok (script_login_manager run).
Proof.
  unfold new_LoginManager, script_login_manager.
  now destruct (REMEMBER_CREDENTIALS run).
Qed.

Lemma parseResponse_for_label (cfg : Settings) (response : string)
    (arguments : Arguments) :
  startsWith (parseResponse_for cfg response arguments) "Response: " = true.
Proof.
  unfold parseResponse_for.
  destruct (get "switchcmd" arguments) as [[n | verb]|];
    apply startsWith_app.
Qed.

Section Run.

Context {crypto : Crypto}.
Variable cfg : Settings.
Variable run : RunSettings.
Variable box : Box.
Variable ui : UI.
Variable args : ScriptArgs.
Variable st : Store.

(** The run once the arguments are read and parsed. *)
Lemma main_try_with_arguments (a0 a : Arguments) :
  getInputArgs run args = Ok a0 ->
  parseArgs cfg a0 = Ok a ->
  main_try cfg run box ui args st
  = let lm := script_login_manager run in
    match snd (getCredentials lm ui st) with
    | None => (fst (getCredentials lm ui st), st, Returned)
    | Some c =>
        let handshake := create cfg box (user c) (pass c) in
        let steps2 := (fst (getCredentials lm ui st) ++ session_steps handshake)%list in
        match outcome handshake with
        | inl err => (steps2, st, Raised err)
        | inr sid =>
            let upd := updateStoredCredentials lm ui (user c) (pass c) st in
            let command := sendCommand box sid a in
            let steps4 := (steps2 ++ fst upd ++ session_steps command)%list in
            match outcome command with
            | inl err => (steps4, snd upd, Raised err)
            | inr response =>
                let text := parseResponse_for cfg response a in
                ((steps4 ++ session_steps (showNotification cfg text)
                         ++ [SetShortcutOutput text])%list,
                 snd upd, Finished)
            end
        end
    end.
Proof.
  intros Hargs Hparse. unfold main_try.
  rewrite Hargs. cbv beta iota delta [Ok]. rewrite Hparse.
  cbv beta iota delta [Ok]. rewrite new_script_login_manager.
  cbv beta iota zeta delta [Ok].
  destruct (getCredentials (script_login_manager run) ui st) as [steps1 [c|]];
    cbn [fst snd]; [|reflexivity].
  destruct (outcome (create cfg box (user c) (pass c))); [reflexivity|].
  destruct (updateStoredCredentials _ ui (user c) (pass c) st) as [steps3 st3].
  cbn [fst snd].
  destruct (outcome (sendCommand box _ a)); reflexivity.
Qed.

(** X18.  When the user cancels the login alert, the run ends there: the
    alert is its only step.  No request is made, nothing is notified or
    output, [Script.complete] is not called, the keychain is as before. *)
Theorem main_cancelled (a0 a : Arguments) :
  getInputArgs run args = Ok a0 ->
  parseArgs cfg a0 = Ok a ->
  REMEMBER_CREDENTIALS run = false
  \/ getRememberedCredentials (script_login_manager run) st = None ->
  login_response ui = (-1)%Z ->
  main cfg run box ui args st = ([AlertPresent "Fritz!Box Login"], st).
Proof.
  intros Hargs Hparse Hneed Hcancel. unfold main.
  rewrite (main_try_with_arguments a0 a Hargs Hparse). cbv zeta.
  assert (Hcred : getCredentials (script_login_manager run) ui st
                  = ([AlertPresent "Fritz!Box Login"], None)).
  { unfold getCredentials, showLoginAlert. rewrite Hcancel.
    destruct Hneed as [Hoff | Hnone].
    - cbn [script_login_manager this_REMEMBER_CREDENTIALS]. now rewrite Hoff.
    - rewrite Hnone. now rewrite andb_false_r. }
  rewrite Hcred. reflexivity.
Qed.

(** X19.  When the start arguments are missing, or [parseArgs] rejects
    them, the run logs the error, notifies its text and completes: no alert
    is shown, no request is made and the keychain is as before. *)
Theorem main_argument_error (err : Exn) :
  getInputArgs run args = Throw err
  \/ (exists a0 : Arguments,
         getInputArgs run args = Ok a0 /\ parseArgs cfg a0 = Throw err) ->
  main cfg run box ui args st
  = ((ConsoleError err
        :: session_steps (showNotification cfg (Exn_toString err))
        ++ [ScriptComplete])%list,
     st).
Proof.
  intros [Hargs | [a0 [Hargs Hparse]]]; unfold main, main_try.
  - rewrite Hargs. reflexivity.
  - rewrite Hargs. cbv beta iota delta [Ok]. rewrite Hparse. reflexivity.
Qed.

(** X20.  A run changes the keychain only after a handshake that returned:
    the keychain it leaves is the one it found, or else credentials were
    obtained, [create] returned with them, and the keychain is the one
    [updateStoredCredentials] leaves. *)
Theorem main_keychain :
  snd (main cfg run box ui args st) = st
  \/ exists (c : Credentials) (sid : option string),
       snd (getCredentials (script_login_manager run) ui st) = Some c
       /\ outcome (create cfg box (user c) (pass c)) = Ok sid
       /\ snd (main cfg run box ui args st)
          = snd (updateStoredCredentials (script_login_manager run) ui
                   (user c) (pass c) st).
Proof.
  destruct (getInputArgs run args) as [e | a0] eqn:Hargs.
  { left. unfold main, main_try. now rewrite Hargs. }
  destruct (parseArgs cfg a0) as [e | a] eqn:Hparse.
  { left. unfold main, main_try. rewrite Hargs. cbv beta iota delta [Ok].
    now rewrite Hparse. }
  unfold main. rewrite (main_try_with_arguments a0 a Hargs Hparse). cbv zeta.
  destruct (snd (getCredentials (script_login_manager run) ui st)) as [c|] eqn:Hc;
    [|now left].
  destruct (outcome (create cfg box (user c) (pass c))) as [e | sid] eqn:Hsid;
    [now left|].
  right. exists c, sid. split; [reflexivity|]. split; [exact Hsid|].
  destruct (outcome (sendCommand box sid a)); reflexivity.
Qed.

(** X21.  With remembering on and a pair in the keychain, a run shows no
    alert at all and leaves the keychain as it is, whether the login and
    the command succeed or not. *)
Theorem main_with_stored_credentials (c : Credentials) :
  REMEMBER_CREDENTIALS run = true ->
  getRememberedCredentials (script_login_manager run) st = Some c ->
  alerts (fst (main cfg run box ui args st)) = []
  /\ snd (main cfg run box ui args st) = st.
Proof.
  intros Hon Hstored.
  destruct (getInputArgs run args) as [e | a0] eqn:Hargs.
  { unfold main, main_try. rewrite Hargs. cbn [fst snd].
    read_steps.
    destruct (session_steps_quiet (showNotification cfg (Exn_toString e))) as [-> _].
    split; reflexivity. }
  destruct (parseArgs cfg a0) as [e | a] eqn:Hparse.
  { unfold main, main_try. rewrite Hargs. cbv beta iota delta [Ok].
    rewrite Hparse. cbn [fst snd].
    read_steps.
    destruct (session_steps_quiet (showNotification cfg (Exn_toString e))) as [-> _].
    split; reflexivity. }
  unfold main. rewrite (main_try_with_arguments a0 a Hargs Hparse). cbv zeta.
  assert (Hcred : getCredentials (script_login_manager run) ui st = ([], Some c)).
  { unfold getCredentials. rewrite Hstored.
    cbn [script_login_manager this_REMEMBER_CREDENTIALS]. now rewrite Hon. }
  assert (Hupd : forall u p,
             updateStoredCredentials (script_login_manager run) ui u p st = ([], st)).
  { intros u p. unfold updateStoredCredentials. rewrite Hstored.
    cbn [script_login_manager this_REMEMBER_CREDENTIALS]. now rewrite Hon. }
  rewrite Hcred. cbn [fst snd]. rewrite Hupd. cbn [fst snd app].
  pose proof (fun A (m : M A) => proj1 (session_steps_quiet m)) as Hq.
  destruct (outcome (create cfg box (user c) (pass c))) as [e | sid].
  { cbn [fst snd]. read_steps. rewrite !Hq. split; reflexivity. }
  destruct (outcome (sendCommand box sid a)) as [e | response];
    cbn [fst snd]; read_steps; rewrite !Hq; split; reflexivity.
Qed.

(** X22.  Once credentials are at hand, the requests of a run are those of
    the handshake, followed, when and only when the handshake returned, by
    the one command request, which carries the session id the handshake
    returned and the parsed arguments. *)
Theorem main_requests (a0 a : Arguments) (c : Credentials) :
  getInputArgs run args = Ok a0 ->
  parseArgs cfg a0 = Ok a ->
  snd (getCredentials (script_login_manager run) ui st) = Some c ->
  run_requests (fst (main cfg run box ui args st))
  = (requests (trace (create cfg box (user c) (pass c)))
     ++ match outcome (create cfg box (user c) (pass c)) with
        | inl _ => []
        | inr sid => [command_request sid a]
        end)%list.
Proof.
  intros Hargs Hparse Hc. unfold main.
  rewrite (main_try_with_arguments a0 a Hargs Hparse). cbv zeta. rewrite Hc.
  pose proof (fun A (m : M A) => proj2 (proj2 (proj2 (session_steps_quiet m)))) as Hq.
  pose proof (proj2 (proj2 (getCredentials_quiet (script_login_manager run) ui st)))
    as Hg.
  pose proof (proj2 (proj2 (updateStoredCredentials_quiet
                              (script_login_manager run) ui (user c) (pass c) st)))
    as Hu.
  assert (Hcmd : forall sid, requests (trace (sendCommand box sid a))
                             = [command_request sid a]).
  { intros sid. unfold sendCommand, load. run.
    destruct (loadString box _); reflexivity. }
  destruct (outcome (create cfg box (user c) (pass c))) as [e | sid].
  { cbn [fst]. read_steps. rewrite Hg, !Hq, showNotification_requests.
    reflexivity. }
  destruct (outcome (sendCommand box sid a)) as [e | response]; cbn [fst];
    read_steps; rewrite Hg, Hu, !Hq, !showNotification_requests, Hcmd;
    cbn [app]; rewrite ?app_nil_r; reflexivity.
Qed.

(** X23.  A run sets the shortcut output at most once.  When it does, the
    text starts with "Response: ", no error was logged, and the run ends
    with [Script.complete]; when it does not, nothing was output. *)
Theorem main_output :
  let steps := fst (main cfg run box ui args st) in
  outputs steps = []
  \/ exists (text : string) (before : list Step),
       steps = (before ++ [SetShortcutOutput text; ScriptComplete])%list
       /\ outputs steps = [text]
       /\ startsWith text "Response: " = true
       /\ errors steps = [].
Proof.
  intros steps. subst steps.
  pose proof (fun A (m : M A) => proj1 (proj2 (session_steps_quiet m))) as Hqo.
  pose proof (fun A (m : M A) => proj1 (proj2 (proj2 (session_steps_quiet m)))) as Hqe.
  destruct (getInputArgs run args) as [e | a0] eqn:Hargs.
  { left. unfold main, main_try. rewrite Hargs. cbn [fst].
    read_steps. rewrite Hqo. reflexivity. }
  destruct (parseArgs cfg a0) as [e | a] eqn:Hparse.
  { left. unfold main, main_try. rewrite Hargs. cbv beta iota delta [Ok].
    rewrite Hparse. cbn [fst]. read_steps. rewrite Hqo. reflexivity. }
  unfold main. rewrite (main_try_with_arguments a0 a Hargs Hparse). cbv zeta.
  destruct (getCredentials_quiet (script_login_manager run) ui st) as [Hgo [Hge _]].
  destruct (snd (getCredentials (script_login_manager run) ui st)) as [c|];
    [|left; exact Hgo].
  destruct (updateStoredCredentials_quiet (script_login_manager run) ui
              (user c) (pass c) st) as [Huo [Hue _]].
  destruct (outcome (create cfg box (user c) (pass c))) as [e | sid].
  { left. cbn [fst]. read_steps. rewrite Hgo, !Hqo. reflexivity. }
  destruct (outcome (sendCommand box sid a)) as [e | response].
  { left. cbn [fst]. read_steps. rewrite Hgo, Huo, !Hqo. reflexivity. }
  right. cbn [fst].
  exists (parseResponse_for cfg response a). eexists. split.
  - match goal with
    | |- ((?X ++ ?N ++ [?O]) ++ [?C])%list = _ =>
        transitivity ((X ++ N) ++ [O; C])%list;
        [now rewrite (app_assoc X N [O]), <- app_assoc | reflexivity]
    end.
  - split; [|split; [apply parseResponse_for_label|]].
    + read_steps. rewrite Hgo, Huo, !Hqo. reflexivity.
    + read_steps. rewrite Hge, Hue, !Hqe. reflexivity.
Qed.

End Run.

Lemma main_cancelled_witness :
  let query := [("switchcmd", VStr "gettemperature"); ("ain", VStr "012340000123")] in
  let box := Sim.box (Ok (Sim.login_info "2$10000$5A1711$2000$AA00" "0"))
                     (Ok (Sim.session_info "0123456789abcdef")) in
  getInputArgs shipped_run (SimHost.from_url query) = Ok query
  /\ parseArgs shipped query = Ok query
  /\ (REMEMBER_CREDENTIALS shipped_run = false
      \/ getRememberedCredentials (script_login_manager shipped_run)
           SimHost.empty_keychain = None)
  /\ login_response SimHost.user_cancels = (-1)%Z
  /\ main (crypto := Sim.crypto_js) shipped shipped_run box SimHost.user_cancels
       (SimHost.from_url query) SimHost.empty_keychain
     = ([AlertPresent "Fritz!Box Login"], SimHost.empty_keychain).
Proof.
  intros query box.
  assert (Hneed : REMEMBER_CREDENTIALS shipped_run = false
                  \/ getRememberedCredentials (script_login_manager shipped_run)
                       SimHost.empty_keychain = None) by (right; reflexivity).
  split; [reflexivity|]. split; [reflexivity|]. split; [exact Hneed|].
  split; [reflexivity|].
  exact (main_cancelled (crypto := Sim.crypto_js) shipped shipped_run box
           SimHost.user_cancels (SimHost.from_url query) SimHost.empty_keychain
           query query eq_refl eq_refl Hneed eq_refl).
Defined.

Lemma main_argument_error_witness :
  let box := Sim.box (Ok (Sim.login_info "2$10000$5A1711$2000$AA00" "0"))
                     (Ok (Sim.session_info "0123456789abcdef")) in
  let query := [("switchcmd", VStr "sethkrtsoll"); ("ain", VStr "012340000123")] in
  (exists a0 : Arguments,
      getInputArgs shipped_run (SimHost.from_url query) = Ok a0
      /\ parseArgs shipped a0
         = Throw (Error "No temperature was passed to the script"))
  /\ main (crypto := Sim.crypto_js) shipped shipped_run box
       (SimHost.user_logs_in "anna" "pw") (SimHost.from_url query)
       SimHost.empty_keychain
     = ([ConsoleError (Error "No temperature was passed to the script");
         Session (Notify "Error: No temperature was passed to the script");
         Session (ConsoleLog
                    "Notification: Error: No temperature was passed to the script");
         ScriptComplete],
        SimHost.empty_keychain).
Proof.
  intros box query.
  assert (H : exists a0 : Arguments,
             getInputArgs shipped_run (SimHost.from_url query) = Ok a0
             /\ parseArgs shipped a0
                = Throw (Error "No temperature was passed to the script"))
    by (exists query; split; reflexivity).
  split; [exact H|].
  exact (main_argument_error (crypto := Sim.crypto_js) shipped shipped_run box
           (SimHost.user_logs_in "anna" "pw") (SimHost.from_url query)
           SimHost.empty_keychain _ (or_intror H)).
Defined.

Lemma main_with_stored_credentials_witness :
  let box := Sim.box (Ok (Sim.login_info "2$10000$5A1711$2000$AA00" "0"))
                     (Ok (Sim.session_info "0000000000000000")) in
  let query := [("switchcmd", VStr "gettemperature"); ("ain", VStr "012340000123")] in
  let st := SimHost.keychain_with "anna" "wrong" in
  REMEMBER_CREDENTIALS shipped_run = true
  /\ getRememberedCredentials (script_login_manager shipped_run) st
     = Some {| user := "anna"; pass := "wrong" |}
  /\ alerts (fst (main (crypto := Sim.crypto_js) shipped shipped_run box
                    SimHost.user_cancels (SimHost.from_url query) st)) = []
  /\ snd (main (crypto := Sim.crypto_js) shipped shipped_run box
            SimHost.user_cancels (SimHost.from_url query) st) = st.
Proof.
  intros box query st.
  split; [reflexivity|]. split; [reflexivity|].
  exact (main_with_stored_credentials (crypto := Sim.crypto_js) shipped shipped_run
           box SimHost.user_cancels (SimHost.from_url query) st
           {| user := "anna"; pass := "wrong" |} eq_refl eq_refl).
Defined.

Lemma main_requests_witness :
  let box := Sim.box (Ok (Sim.login_info "2$10000$5A1711$2000$AA00" "0"))
                     (Ok "<SessionInfo><BlockTime>0</BlockTime></SessionInfo>") in
  let query := [("switchcmd", VStr "gettemperature"); ("ain", VStr "012340000123")] in
  let ui := SimHost.user_logs_in "anna" "pw" in
  getInputArgs shipped_run (SimHost.from_url query) = Ok query
  /\ parseArgs shipped query = Ok query
  /\ snd (getCredentials (script_login_manager shipped_run) ui
            SimHost.empty_keychain)
     = Some {| user := "anna"; pass := "pw" |}
  /\ map url (run_requests
               (fst (main (crypto := Sim.crypto_js) shipped shipped_run box ui
                       (SimHost.from_url query) SimHost.empty_keychain)))
     = ["http://fritz.box/login_sid.lua?version=2";
        "http://fritz.box/login_sid.lua?version=2";
        "http://fritz.box/webservices/homeautoswitch.lua?sid=null&switchcmd=gettemperature&ain=012340000123"].
Proof.
  intros box query ui.
  split; [reflexivity|]. split; [reflexivity|]. split; [reflexivity|].
  rewrite (main_requests (crypto := Sim.crypto_js) shipped shipped_run box ui
             (SimHost.from_url query) SimHost.empty_keychain query query
             {| user := "anna"; pass := "pw" |} eq_refl eq_refl eq_refl).
  reflexivity.
Defined.
